(** * Order service: a shallow embedding of [services/order/main.py]

    The service has three handlers: [healthz], [create_order] and
    [get_order].  [create_order] asks the product catalog for a product
    over HTTP, multiplies its price (a Python [float], IEEE-754 binary64)
    by the requested quantity, compares the reported stock with the
    quantity and writes one row of the [orders] table; [get_order] reads
    one row by primary key.

    The embedding follows the source line by line.  Python values are an
    inductive type, raised exceptions are an [outcome], and a handler is a
    function from the state of the outside world (the [orders] table and
    the catalog) to an outcome and a new state.  Binary64 arithmetic is
    the one of [SpecFloat] at precision 53 and maximal exponent 1024.

    What lies outside the source is modelled as follows.
    - Python ints are unbounded ([Z]); an [Integer] column is PostgreSQL's
      [int4], and the server refuses a value outside its range.
    - The catalog is a function from URLs to answers; the handlers only
      read it.
    - The [orders] table is a finite map from primary keys to rows, with
      the sequence that gives the next key.
    - A float assigned to the [Numeric(10,2)] column is stored the way
      PostgreSQL does behind psycopg2, the pair [DATABASE_URL] names by
      default: the driver writes the float with [repr], the server rounds
      that numeral to two decimals, ties away from zero, and refuses a
      value of more than eight digits before the point.  A refused INSERT
      leaves the table and its sequence as they were, unless the refusal is
      that of a key in use, which comes after the sequence gave the key.
    - FastAPI answers 200 with the JSON encoding of what a handler
      returns; a value it cannot encode is a 500.
    - [datetime.utcnow] is an argument of [create_order].

    The file has two parts: the definitions, then the properties.  The
    properties start with the rounding of binary64 operations, which the
    statement about the total of an order needs, and end with one theorem
    per checked statement. *)

From Stdlib Require Import ZArith String List Bool Lia Reals Lra.
From Stdlib Require Import Floats.SpecFloat.
From stdpp Require Import base option gmap strings pretty.

Local Open Scope string_scope.
Local Open Scope Z_scope.

(** ** Python values and exceptions *)

(** What [r.json()] can produce. *)
#[warnings="-register-all"]
Inductive pyval :=
  | PyNone
  | PyBool (b : bool)
  | PyInt (z : Z)
  | PyFloat (f : spec_float)
  | PyStr (s : string)
  | PyList (l : list pyval)
  | PyDict (d : gmap string pyval).

(** The exceptions the handlers can meet.  [HTTPException] is the only one
    FastAPI turns into a response of its own; any other one is an
    unhandled error of the request.  [DBAPIError] is SQLAlchemy's, with its
    subclasses [DataError] and [IntegrityError]. *)
Inductive exn :=
  | HTTPException (status_code : Z) (detail : string)
  | KeyError (key : string)
  | TypeError
  | ValueError
  | OverflowError
  | JSONDecodeError
  | TransportError
  | DBAPIError.

Inductive outcome (A : Type) :=
  | Returned (a : A)
  | Raised (e : exn).
Arguments Returned {A} a.
Arguments Raised {A} e.

#[global] Instance outcome_ret : MRet outcome := fun A a => Returned a.
#[global] Instance outcome_bind : MBind outcome := fun A B k m =>
  match m with
  | Returned a => k a
  | Raised e => Raised e
  end.

(** Whether FastAPI can write a returned value as the JSON body of the
    answer. *)
Class Encodable (A : Type) := encodable : A -> bool.

#[global] Instance string_encodable : Encodable string := fun _ => true.

(** The status line FastAPI answers with: 200 with the encoded value, the
    status of an [HTTPException], and 500 for any other exception, that of
    the encoder included. *)
Definition response_status {A} `{Encodable A} (r : outcome A) : Z :=
  match r with
  | Returned a => if encodable a then 200 else 500
  | Raised (HTTPException c _) => c
  | Raised _ => 500
  end.

Definition response_detail {A} (r : outcome A) : option string :=
  match r with
  | Raised (HTTPException _ d) => Some d
  | _ => None
  end.

Definition is_http_exception (e : exn) : bool :=
  match e with
  | HTTPException _ _ => true
  | _ => false
  end.

(** ** Binary64 *)

Definition prec : Z := 53.
Definition emax : Z := 1024.

Definition float_mul : spec_float -> spec_float -> spec_float := SFmul prec emax.

(** The nearest binary64 (ties to even) of the fraction [n / d], [d > 0]. *)
Definition float_of_fraction (n : Z) (d : positive) : spec_float :=
  match n with
  | Z0 => S754_zero false
  | Zpos p => SFdiv prec emax (S754_finite false p 0) (S754_finite false d 0)
  | Zneg p => SFdiv prec emax (S754_finite true p 0) (S754_finite false d 0)
  end.

(** The nearest binary64 of the decimal [m * 10^e]: what the JSON decoder
    and [repr]'s round trip compute. *)
Definition float_of_decimal (m e : Z) : spec_float :=
  if 0 <=? e then float_of_fraction (m * 10 ^ e) 1
  else float_of_fraction m (Z.to_pos (10 ^ (- e))).

(** Conversion of a Python [int]: the nearest binary64, or [OverflowError]
    when the integer is beyond the largest one. *)
Definition int_to_float (z : Z) : outcome spec_float :=
  match binary_normalize prec emax z 0 false with
  | S754_infinity _ => Raised OverflowError
  | f => Returned f
  end.

(** [x < q] for a float [x] and an int [q]: Python compares the two exactly. *)
Definition float_lt_int (x : spec_float) (q : Z) : bool :=
  match x with
  | S754_nan => false
  | S754_infinity s => s
  | S754_zero _ => 0 <? q
  | S754_finite s m e =>
      let v := cond_Zopp s (Zpos m) in
      if 0 <=? e then v * 2 ^ e <? q else v <? q * 2 ^ (- e)
  end.

(** ** The Python operations of [create_order] *)

Section Python.

(** [float(s)] on a [str] is CPython's reader of float literals; it is
    outside this repository and stays a parameter. [None] is a
    [ValueError]. *)
Variable str_to_float : string -> option spec_float.

(** [product[key]] *)
Definition py_getitem (v : pyval) (key : string) : outcome pyval :=
  match v with
  | PyDict d =>
      match d !! key with
      | Some x => Returned x
      | None => Raised (KeyError key)
      end
  | _ => Raised TypeError
  end.

(** [float(v)] *)
Definition py_float (v : pyval) : outcome spec_float :=
  match v with
  | PyFloat f => Returned f
  | PyInt z => int_to_float z
  | PyBool b => Returned (if b then S754_finite false 4503599627370496 (-52)
                          else S754_zero false)
  | PyStr s =>
      match str_to_float s with
      | Some f => Returned f
      | None => Raised ValueError
      end
  | PyNone | PyList _ | PyDict _ => Raised TypeError
  end.

(** [x * q] for a float [x] and an int [q] *)
Definition py_mul (x : spec_float) (q : Z) : outcome spec_float :=
  y ← int_to_float q; mret (float_mul x y).

(** [v < q] for an int [q] *)
Definition py_lt (v : pyval) (q : Z) : outcome bool :=
  match v with
  | PyInt z => Returned (z <? q)
  | PyBool b => Returned (Z.b2z b <? q)
  | PyFloat x => Returned (float_lt_int x q)
  | PyNone | PyStr _ | PyList _ | PyDict _ => Raised TypeError
  end.

End Python.

(** ** The [orders] table *)

(** A value of a [Numeric(10,2)] column: a count of hundredths, or the
    not-a-number value the column type also admits. *)
Inductive numeric :=
  | NumNaN
  | Num (hundredths : Z).

(** A decimal numeral [dmant * 10^dexp]. *)
Record decimal := Decimal { dmant : Z; dexp : Z }.

Definition float_eqb (x y : spec_float) : bool :=
  match x, y with
  | S754_zero a, S754_zero b => Bool.eqb a b
  | S754_infinity a, S754_infinity b => Bool.eqb a b
  | S754_nan, S754_nan => true
  | S754_finite a m e, S754_finite b m' e' =>
      Bool.eqb a b && Pos.eqb m m' && Z.eqb e e'
  | _, _ => false
  end.

(** The exact value of the positive binary64 [m * 2^e] as a fraction. *)
Definition fraction_of (m : positive) (e : Z) : Z * Z :=
  if 0 <=? e then (Zpos m * 2 ^ e, 1) else (Zpos m, 2 ^ (- e)).

(** [10^k <= n / d] *)
Definition ge_pow10 (n d k : Z) : bool :=
  if 0 <=? k then d * 10 ^ k <=? n else d <=? n * 10 ^ (- k).

(** The exponent [k] of the leading decimal digit of [n / d]:
    [10^k <= n / d < 10^(k+1)]. *)
Definition decimal_exponent (n d : Z) : Z :=
  let k := (Z.log2 n - Z.log2 d) * 30103 / 100000 in
  if ge_pow10 n d (k + 1) then k + 1
  else if ge_pow10 n d k then k
  else k - 1.

(** The numeral of [ndigits] significant digits nearest to [n / d] among
    those that read back as [x], if there is one: the candidates are the
    two numerals around [n / d], or the one that equals it. *)
Definition repr_candidate (x : spec_float) (n d k ndigits : Z) : option decimal :=
  let p := ndigits - 1 - k in
  let num := if 0 <=? p then n * 10 ^ p else n in
  let den := if 0 <=? p then d else d * 10 ^ (- p) in
  let lo := num / den in
  let r := num mod den in
  let reads c := float_eqb (float_of_decimal c (- p)) x in
  match reads lo, negb (r =? 0) && reads (lo + 1) with
  | true, true =>
      Some (Decimal (if 2 * r <? den then lo
                     else if den <? 2 * r then lo + 1
                     else if Z.even lo then lo else lo + 1) (- p))
  | true, false => Some (Decimal lo (- p))
  | false, true => Some (Decimal (lo + 1) (- p))
  | false, false => None
  end.

Fixpoint repr_search (x : spec_float) (n d k : Z) (ndigits : Z) (fuel : nat)
  : option decimal :=
  match fuel with
  | O => None
  | S fuel' =>
      match repr_candidate x n d k ndigits with
      | Some c => Some c
      | None => repr_search x n d k (ndigits + 1) fuel'
      end
  end.

(** The exact decimal expansion of [m * 2^e]. *)
Definition exact_decimal (m : positive) (e : Z) : decimal :=
  if 0 <=? e then Decimal (Zpos m * 2 ^ e) 0
  else Decimal (Zpos m * 5 ^ (- e)) e.

(** [repr(x)] of a finite float, as a numeral: the shortest one, of at most
    17 digits, that reads back as [x].  The psycopg2 driver named by
    [DATABASE_URL] sends a float parameter to the server in this form. *)
Definition float_repr (x : spec_float) : decimal :=
  match x with
  | S754_finite s m e =>
      let '(n, d) := fraction_of m e in
      let c :=
        match repr_search (S754_finite false m e) n d (decimal_exponent n d) 1 17 with
        | Some c => c
        | None => exact_decimal m e
        end in
      Decimal (cond_Zopp s (dmant c)) (dexp c)
  | _ => Decimal 0 0
  end.

(** A numeral rounded to [scale] fractional digits, ties away from zero,
    as a count of units of [10^-scale]: the server's rounding of a value
    assigned to a [numeric] column. *)
Definition round_half_away (c : decimal) (scale : Z) : Z :=
  let s := dexp c + scale in
  if 0 <=? s then dmant c * 10 ^ s
  else
    let p := 10 ^ (- s) in
    Z.sgn (dmant c) * ((Z.abs (dmant c) + p / 2) / p).

(** [total = Column(Numeric(10,2), nullable=False)]: the assignment of a
    Python float to the column.  Ten digits of precision, two of them
    after the point; a value that needs more is refused by the server. *)
Definition to_numeric_10_2 (x : spec_float) : outcome numeric :=
  match x with
  | S754_nan => Returned NumNaN
  | S754_infinity _ => Raised DBAPIError
  | S754_zero _ => Returned (Num 0)
  | S754_finite _ _ _ =>
      let h := round_half_away (float_repr x) 2 in
      if Z.abs h <? 10 ^ 10 then Returned (Num h) else Raised DBAPIError
  end.

Module Order.
(** [class Order(Base)] *)
Record t := mk {
  id : Z;
  user_id : Z;
  product_id : Z;
  quantity : Z;
  total : numeric;
  status : string;
  created_at : Z
}.
End Order.

(** The JSON encoder has no number for the [Decimal] that is not a
    number; every other field of a row is an int, a string or a date. *)
#[global] Instance order_encodable : Encodable Order.t := fun o =>
  match Order.total o with
  | NumNaN => false
  | Num _ => true
  end.

Module OrderCreate.
(** [class OrderCreate(BaseModel)] *)
Record t := mk {
  user_id : Z;
  product_id : Z;
  quantity : Z
}.
End OrderCreate.

(** [Column(Integer, ...)]: the range of PostgreSQL's [int4]. *)
Definition in_int4 (z : Z) : bool := (- 2 ^ 31 <=? z) && (z <? 2 ^ 31).

(** The integers of a request fit the columns they are written to. *)
Definition fits_columns (order : OrderCreate.t) : bool :=
  in_int4 (OrderCreate.user_id order)
  && in_int4 (OrderCreate.product_id order)
  && in_int4 (OrderCreate.quantity order).

(** The table, keyed by its primary key ([id], [primary_key=True]), and
    the sequence that feeds [id]: [orders_id_seq] is the key the next
    INSERT gets.  A [DateTime] is a count of microseconds. *)
Record store := Store {
  orders : gmap Z Order.t;
  orders_id_seq : Z
}.

(** The answer of the catalog to one GET. *)
Record Response := mkResponse {
  status_code : Z;
  json : outcome pyval
}.

(** The world a request runs in: the database, and the catalog as the
    answers it gives per URL ([None]: the request itself fails). *)
Record world := World {
  db : store;
  catalog : string -> option Response
}.

(** ** Handlers *)

Definition handler (A : Type) : Type := world -> outcome A * world.

#[global] Instance handler_ret : MRet handler := fun A a w => (Returned a, w).
#[global] Instance handler_bind : MBind handler := fun A B k m w =>
  match m w with
  | (Returned a, w') => k a w'
  | (Raised e, w') => (Raised e, w')
  end.

Definition raise {A} (e : exn) : handler A := fun w => (Raised e, w).

Definition lift {A} (r : outcome A) : handler A := fun w => (r, w).

(** [httpx.get(url)] *)
Definition httpx_get (url : string) : handler Response := fun w =>
  match catalog w url with
  | Some r => (Returned r, w)
  | None => (Raised TransportError, w)
  end.

(** [db.add(db_order); db.commit()]: one INSERT.  The sequence gives the
    key, [status] and [created_at] take their column defaults, [total] is
    coerced to the column type.  The server refuses, in this order: an
    integer outside [int4] or a total the column cannot hold, before the
    sequence is asked; a sequence that has run out of [int4]; a key
    already in use, after the sequence gave it.  A refused INSERT aborts
    the transaction and writes no row. *)
Definition db_add_commit (now : Z) (user_id product_id quantity : Z)
    (total : spec_float) : handler Z := fun w =>
  let s := db w in
  let key := orders_id_seq s in
  if negb (in_int4 user_id && in_int4 product_id && in_int4 quantity) then
    (Raised DBAPIError, w)
  else
    match to_numeric_10_2 total with
    | Raised e => (Raised e, w)
    | Returned t =>
        if negb (in_int4 key) then (Raised DBAPIError, w)
        else
          let advanced rows := World (Store rows (key + 1)) (catalog w) in
          match orders s !! key with
          | Some _ => (Raised DBAPIError, advanced (orders s))
          | None =>
              let row := Order.mk key user_id product_id quantity t "PENDING" now in
              (Returned key, advanced (<[key := row]> (orders s)))
          end
    end.

(** [db.refresh(db_order)]: the row is read back by its key. *)
Definition db_refresh (key : Z) : handler Order.t := fun w =>
  match orders (db w) !! key with
  | Some row => (Returned row, w)
  | None => (Raised DBAPIError, w)
  end.

(** [db.query(Order).filter(Order.id == order_id).first()] *)
Definition db_query_first (order_id : Z) : handler (option Order.t) := fun w =>
  (Returned (orders (db w) !! order_id), w).

Definition product_url (product_id : Z) : string :=
  "http://product-catalog:8080/products/" +:+ pretty product_id.

(** [@app.get("/healthz")] *)
Definition healthz : handler string := mret "ok".

Section Handlers.

Variable str_to_float : string -> option spec_float.

(** [@app.post("/orders")]; [now] is the value [datetime.utcnow] gives
    when the row is written. *)
Definition create_order (now : Z) (order : OrderCreate.t) : handler Order.t :=
  r ← httpx_get (product_url (OrderCreate.product_id order));
  if bool_decide (status_code r ≠ 200) then
    raise (HTTPException 400 "product not found")
  else
    product ← lift (json r);
    price ← lift (py_getitem product "price");
    total ← lift (x ← py_float str_to_float price;
                  py_mul x (OrderCreate.quantity order));
    stock ← lift (py_getitem product "stock");
    short ← lift (py_lt stock (OrderCreate.quantity order));
    if (short : bool) then
      raise (HTTPException 400 "insufficient stock")
    else
      key ← db_add_commit now (OrderCreate.user_id order)
              (OrderCreate.product_id order) (OrderCreate.quantity order) total;
      db_refresh key.

(** [@app.get("/orders/{order_id}")] *)
Definition get_order (order_id : Z) : handler Order.t :=
  order ← db_query_first order_id;
  match order with
  | None => raise (HTTPException 404 "not found")
  | Some o => mret o
  end.

End Handlers.

(** ** The stages of [create_order] *)

(** [2xx]: what HTTP calls a success status. *)
Definition is_success (code : Z) : bool := (200 <=? code) && (code <=? 299).

(** The product as the handler sees it once the catalog has answered 200
    with a JSON body. *)
Definition catalog_answers (w : world) (product_id : Z) (product : pyval) : Prop :=
  exists r, catalog w (product_url product_id) = Some r
            /\ status_code r = 200 /\ json r = Returned product.

(** The lines of [create_order] between the status test and the INSERT:
    the total, then the stock test. *)
Definition checked_total (str_to_float : string -> option spec_float)
    (product : pyval) (quantity : Z) : outcome spec_float :=
  price ← py_getitem product "price";
  total ← (x ← py_float str_to_float price; py_mul x quantity);
  stock ← py_getitem product "stock";
  short ← py_lt stock quantity;
  if (short : bool) then Raised (HTTPException 400 "insufficient stock")
  else Returned total.

(** [db_add_commit] followed by [db_refresh]. *)
Definition persist (now : Z) (order : OrderCreate.t) (total : spec_float)
  : handler Order.t :=
  key ← db_add_commit now (OrderCreate.user_id order)
          (OrderCreate.product_id order) (OrderCreate.quantity order) total;
  db_refresh key.


(** ** Sample worlds *)

(** A [float(str)] that accepts nothing; the samples below carry no
    string. *)
Definition no_str_to_float : string -> option spec_float := fun _ => None.

(** A catalog that knows one product. *)
Definition catalog_with (product_id : Z) (r : Response) : string -> option Response :=
  fun url => if String.eqb url (product_url product_id) then Some r else None.

Definition product_json (price stock : pyval) : pyval :=
  PyDict (<["price" := price]> (<["stock" := stock]> ∅)).

(** The JSON number [m * 10^e], written with a fraction, as decoded. *)
Definition json_decimal (m e : Z) : pyval := PyFloat (float_of_decimal m e).

Definition empty_store : store := Store ∅ 1.

(** The catalog of the spec's scenarios: product 42 costs 9.99. *)
Definition sample_world (stock : Z) : world :=
  World empty_store
    (catalog_with 42 (mkResponse 200 (Returned (product_json (json_decimal 999 (-2)) (PyInt stock))))).

Definition sample_order (quantity : Z) : OrderCreate.t := OrderCreate.mk 1 42 quantity.

(** ** Signs *)

(** A finite float that is not negative: a zero or a positive number. *)
Definition float_nonneg (x : spec_float) : bool :=
  match x with
  | S754_zero _ => true
  | S754_finite s _ _ => negb s
  | _ => false
  end.

(** [x] is a zero, a finite number or an infinity, and carries the sign
    [s]. *)
Definition has_sign (s : bool) (x : spec_float) : Prop :=
  match x with
  | S754_zero s' | S754_finite s' _ _ | S754_infinity s' => s' = s
  | S754_nan => False
  end.

(** ** Values *)

(** The real number a finite float stands for. *)
Definition float_value (x : spec_float) : R :=
  match x with
  | S754_finite s m e => (IZR (cond_Zopp s (Zpos m)) * powerRZ 2 e)%R
  | _ => 0%R
  end.

Definition decimal_value (c : decimal) : R :=
  (IZR (dmant c) * powerRZ 10 (dexp c))%R.

(** The record [mrs] is the integer part of [M / W] with the two bits that
    place the fraction: [shr_r] says it is at least one half, [shr_s] that
    it is neither zero nor one half. *)
Definition located (M W : Z) (mrs : shr_record) : Prop :=
  shr_m mrs = M / W
  /\ shr_r mrs = (W <=? 2 * (M mod W))
  /\ shr_s mrs = negb (M mod W =? 0) && negb (2 * (M mod W) =? W).

(** ** Prices of two decimals *)

(** The JSON number [cents / 100] as [r.json()] gives it: a float when it
    is written with a fraction, an int when it is written as a whole
    number. *)
Definition json_price (cents : Z) (v : pyval) : Prop :=
  v = json_decimal cents (-2) \/ exists k, cents = 100 * k /\ v = PyInt k.

(** [x] is a float for the price [cents / 100]: zero for zero, else a
    normal number with the sign of [cents], within half a unit in its last
    place of [|cents| / 100]. *)
Definition price_float (cents : Z) (x : spec_float) : Prop :=
  (cents = 0 /\ x = S754_zero false)
  \/ (cents <> 0
      /\ exists m e,
           x = S754_finite (cents <? 0) m e
           /\ 2 ^ 52 <= Zpos m < 2 ^ 53
           /\ -59 <= e <= 0
           /\ (Rabs (IZR (Zpos m) * powerRZ 2 e - IZR (Z.abs cents) / 100)
               <= powerRZ 2 e / 2)%R).

(** ** Keys and the sequence *)

(** Every row sits under its own [id], and the sequence is ahead of all
    of them: the state the table is in when rows only come from
    [create_order]. *)
Definition store_wf (s : store) : Prop :=
  forall k o, orders s !! k = Some o -> Order.id o = k /\ k < orders_id_seq s.

(** * Properties *)

(** ** Signs of rounded results *)

Lemma shr_1_nonneg mrs : 0 <= shr_m mrs -> 0 <= shr_m (shr_1 mrs).
Proof.
  destruct mrs as [m r s]. cbn. intros H.
  destruct m as [|[p|p|]|p]; cbn; lia.
Qed.

Lemma iter_pos_invariant {A} (P : A -> Prop) (f : A -> A) :
  (forall a, P a -> P (f a)) -> forall p a, P a -> P (SpecFloat.iter_pos f p a).
Proof.
  intros Hf. induction p as [p IH|p IH|]; intros a Ha; cbn; auto.
Qed.

Lemma shr_nonneg mrs e n :
  0 <= shr_m mrs -> 0 <= shr_m (fst (shr mrs e n)).
Proof.
  intros H. destruct n as [|p|p]; cbn; auto.
  apply (iter_pos_invariant (fun x => 0 <= shr_m x)); auto using shr_1_nonneg.
Qed.

Lemma shr_record_of_loc_m m l : shr_m (shr_record_of_loc m l) = m.
Proof. now destruct l as [|[| |]]. Qed.

Lemma shr_fexp_nonneg m e l :
  0 <= m -> 0 <= shr_m (fst (shr_fexp prec emax m e l)).
Proof.
  intros H. unfold shr_fexp. apply shr_nonneg. now rewrite shr_record_of_loc_m.
Qed.

Lemma round_nearest_even_nonneg m l : 0 <= m -> 0 <= round_nearest_even m l.
Proof.
  intros H. destruct l as [|[| |]]; cbn; try lia. destruct (Z.even m); lia.
Qed.

Lemma binary_round_aux_sign s m e l :
  0 <= m -> has_sign s (binary_round_aux prec emax s m e l).
Proof.
  intros H. unfold binary_round_aux.
  pose proof (shr_fexp_nonneg m e l H) as H1.
  destruct (shr_fexp prec emax m e l) as [mrs1 e1]. cbn in H1.
  pose proof (shr_fexp_nonneg _ e1 loc_Exact
                (round_nearest_even_nonneg _ (loc_of_shr_record mrs1) H1)) as H2.
  destruct (shr_fexp prec emax _ e1 loc_Exact) as [mrs2 e2]. cbn in H2.
  destruct (shr_m mrs2) as [|p|p]; cbn; [reflexivity| |lia].
  now destruct (e2 <=? emax - prec).
Qed.

Lemma binary_normalize_sign z :
  has_sign (z <? 0) (binary_normalize prec emax z 0 false).
Proof.
  destruct z as [|p|p]; [reflexivity| |]; unfold binary_normalize, binary_round;
    destruct (shl_align _ _ _) as [mz ez]; apply binary_round_aux_sign; lia.
Qed.

Lemma int_to_float_returned z y :
  int_to_float z = Returned y ->
  y = binary_normalize prec emax z 0 false /\ forall s, y <> S754_infinity s.
Proof.
  unfold int_to_float.
  destruct (binary_normalize prec emax z 0 false); intros [= <-]; split;
    congruence.
Qed.

Lemma float_mul_sign s1 s2 x y :
  has_sign s1 x -> has_sign s2 y ->
  float_mul x y = S754_nan \/ has_sign (xorb s1 s2) (float_mul x y).
Proof.
  unfold float_mul.
  destruct x as [sx|sx| |sx mx ex], y as [sy|sy| |sy my ey]; cbn -[binary_round_aux];
    try tauto; intros <- <-; auto.
  right. apply binary_round_aux_sign. lia.
Qed.

(** The numeral of [repr] carries the sign of the float. *)
Lemma repr_candidate_nonneg x n d k nd c :
  0 <= n -> 0 < d -> repr_candidate x n d k nd = Some c -> 0 <= dmant c.
Proof.
  intros Hn Hd. unfold repr_candidate.
  set (p := nd - 1 - k).
  set (num := if 0 <=? p then n * 10 ^ p else n).
  set (den := if 0 <=? p then d else d * 10 ^ (- p)).
  assert (Hnum : 0 <= num).
  { unfold num. destruct (0 <=? p); [|lia]. apply Z.mul_nonneg_nonneg; [lia|].
    apply Z.pow_nonneg. lia. }
  assert (Hden : 0 < den).
  { unfold den. destruct (Z.leb_spec 0 p); [lia|].
    apply Z.mul_pos_pos; [lia|]. apply Z.pow_pos_nonneg; lia. }
  assert (Hlo : 0 <= num / den) by (apply Z.div_pos; lia).
  destruct (float_eqb _ x), (negb _ && float_eqb _ x); intros [= <-]; cbn; try lia.
  repeat match goal with |- context [if ?b then _ else _] => destruct b end; lia.
Qed.

Lemma repr_search_nonneg x n d k fuel : forall nd c,
  0 <= n -> 0 < d -> repr_search x n d k nd fuel = Some c -> 0 <= dmant c.
Proof.
  induction fuel as [|fuel IH]; intros nd c Hn Hd; cbn; [discriminate|].
  destruct (repr_candidate x n d k nd) as [c'|] eqn:E.
  - intros [= <-]. eapply repr_candidate_nonneg; eauto.
  - apply IH; auto.
Qed.

Lemma float_repr_sign s m e :
  dmant (float_repr (S754_finite s m e)) = cond_Zopp s (Z.abs (dmant (float_repr (S754_finite s m e)))).
Proof.
  unfold float_repr, fraction_of.
  assert (H : forall n d, (n, d) = (if 0 <=? e then (Z.pos m * 2 ^ e, 1) else (Z.pos m, 2 ^ (- e)))
                          -> 0 <= n /\ 0 < d).
  { intros n d. pose proof (Z.pow_nonneg 2 e ltac:(lia)).
    destruct (Z.leb_spec 0 e); intros [= -> ->].
    - split; [nia|lia].
    - split; [lia|apply Z.pow_pos_nonneg; lia]. }
  destruct (if 0 <=? e then _ else _) as [n d]. destruct (H n d eq_refl) as [Hn Hd].
  set (c := match repr_search (S754_finite false m e) n d (decimal_exponent n d) 1 17 with
            | Some c => c
            | None => exact_decimal m e
            end).
  assert (Hc : 0 <= dmant c).
  { subst c. destruct (repr_search _ n d _ 1 17) as [c|] eqn:E.
    - eapply repr_search_nonneg; eauto.
    - unfold exact_decimal. destruct (0 <=? e); cbn;
        (apply Z.mul_nonneg_nonneg; [lia|]; apply Z.pow_nonneg; lia). }
  clearbody c. cbn. destruct s; cbn; lia.
Qed.

Lemma round_half_away_sign c scale :
  (dmant c <= 0 -> round_half_away c scale <= 0)
  /\ (0 <= dmant c -> 0 <= round_half_away c scale).
Proof.
  unfold round_half_away.
  destruct (0 <=? dexp c + scale).
  - pose proof (Z.pow_nonneg 10 (dexp c + scale)). nia.
  - set (p := 10 ^ (- (dexp c + scale))).
    assert (Hp : 0 <= p) by (apply Z.pow_nonneg; lia).
    destruct (Z.eq_dec p 0) as [E|E].
    + rewrite E. rewrite Z.div_0_r. lia.
    + assert (0 <= (Z.abs (dmant c) + p / 2) / p).
      { apply Z.div_pos; [|lia]. pose proof (Z.div_pos p 2). lia. }
      split; intros; nia.
Qed.

(** A float that carries the minus sign and is accepted by the column is
    stored as a count of hundredths that is not positive. *)
Lemma to_numeric_10_2_negative x t :
  has_sign true x -> to_numeric_10_2 x = Returned t ->
  exists h, t = Num h /\ h <= 0.
Proof.
  destruct x as [s|s| |s m e]; cbn -[float_repr]; try tauto; try discriminate.
  - intros _ [= <-]. exists 0. split; [reflexivity|lia].
  - intros -> H.
    exists (round_half_away (float_repr (S754_finite true m e)) 2).
    destruct (_ <? _); [|discriminate]. split; [congruence|].
    apply round_half_away_sign. rewrite float_repr_sign. cbn. lia.
Qed.

Lemma to_numeric_10_2_zero s : to_numeric_10_2 (S754_zero s) = Returned (Num 0).
Proof. reflexivity. Qed.

(** ** Binary digits *)

Lemma digits2_pos_size p : digits2_pos p = Pos.size p.
Proof. induction p; cbn; congruence. Qed.

Lemma Zdigits2_log2 m : 0 < m -> Zdigits2 m = Z.log2 m + 1.
Proof.
  destruct m as [|p|p]; try lia. intros _. cbn. rewrite digits2_pos_size.
  destruct p; cbn; lia.
Qed.

Lemma Zdigits2_spec m : 0 < m -> 2 ^ (Zdigits2 m - 1) <= m < 2 ^ Zdigits2 m.
Proof.
  intros H. rewrite (Zdigits2_log2 m H).
  replace (Z.log2 m + 1 - 1) with (Z.log2 m) by lia.
  apply (Z.log2_spec m H).
Qed.

Lemma Zdigits2_unique m k : 0 < k -> 2 ^ (k - 1) <= m < 2 ^ k -> Zdigits2 m = k.
Proof.
  intros Hk H.
  assert (0 < m).
  { pose proof (Z.pow_pos_nonneg 2 (k - 1)). lia. }
  rewrite (Zdigits2_log2 m) by assumption.
  rewrite (Z.log2_unique m (k - 1)); [lia|lia|].
  replace (Z.succ (k - 1)) with k by lia. exact H.
Qed.

Lemma Zdigits2_nonneg m : 0 <= Zdigits2 m.
Proof. destruct m; cbn; lia. Qed.

Lemma Zdigits2_pos m : 0 < m -> 0 < Zdigits2 m.
Proof. destruct m; cbn; lia. Qed.

Lemma Zdigits2_lt_pow2 m k : 0 <= m -> 0 <= k -> m < 2 ^ k -> Zdigits2 m <= k.
Proof.
  intros Hm Hk H. destruct (Z.eq_dec m 0) as [->|Hn]; [cbn; lia|].
  rewrite Zdigits2_log2 by lia.
  apply Z.log2_lt_pow2 in H; lia.
Qed.

Lemma Zdigits2_ge_pow2 m k : 0 <= k -> 2 ^ k <= m -> k + 1 <= Zdigits2 m.
Proof.
  intros Hk H.
  assert (0 < m) by (pose proof (Z.pow_pos_nonneg 2 k); lia).
  rewrite Zdigits2_log2 by lia.
  apply Z.log2_le_pow2 in H; lia.
Qed.

Lemma fexp_eq z : fexp prec emax z = Z.max (z - 53) (-1074).
Proof. reflexivity. Qed.

(** ** Shifting a located value *)

Lemma shr_1_eq m r s :
  0 <= m -> shr_1 (Build_shr_record m r s) = Build_shr_record (m / 2) (Z.odd m) (r || s).
Proof.
  intros H. rewrite <- Z.div2_div. destruct m as [|[p|p|]|p]; try lia; reflexivity.
Qed.

Lemma located_shr_1 M W mrs :
  0 <= M -> 0 < W -> located M W mrs -> located M (W * 2) (shr_1 mrs).
Proof.
  intros HM HW. destruct mrs as [m r s]. unfold located. cbn [shr_m shr_r shr_s].
  intros (Hm & Hr & Hs).
  assert (Hm0 : 0 <= m) by (rewrite Hm; apply Z.div_pos; lia).
  rewrite shr_1_eq by assumption. cbn [shr_m shr_r shr_s].
  pose proof (Z.rem_mul_r M W 2 ltac:(lia) ltac:(lia)) as Hrem.
  pose proof (Z.mod_pos_bound M W HW) as Hb.
  pose proof (Z.mod_pos_bound (M / W) 2 ltac:(lia)) as Hb2.
  assert (Hodd : Z.odd m = (m mod 2 =? 1)).
  { rewrite Zmod_odd. now destruct (Z.odd m). }
  rewrite Hodd, Hr, Hs, Hrem, Hm.
  split; [rewrite <- Z.div_div by lia; reflexivity|].
  set (a := M mod W) in *. set (b := (M / W) mod 2) in *.
  assert (Hb01 : b = 0 \/ b = 1) by lia. clearbody a b.
  split.
  - destruct (Z.eqb_spec b 1), (Z.leb_spec (W * 2) (2 * (a + W * b)));
      try reflexivity; destruct Hb01 as [-> | ->]; lia.
  - destruct (Z.leb_spec W (2 * a)), (Z.eqb_spec a 0), (Z.eqb_spec (2 * a) W),
      (Z.eqb_spec (a + W * b) 0), (Z.eqb_spec (2 * (a + W * b)) (W * 2));
      cbn; try reflexivity; destruct Hb01 as [-> | ->]; lia.
Qed.

Lemma located_iter_shr_1 p : forall M W mrs,
  0 <= M -> 0 < W -> located M W mrs ->
  located M (W * 2 ^ Zpos p) (SpecFloat.iter_pos shr_1 p mrs).
Proof.
  induction p as [p IH|p IH|]; intros M W mrs HM HW H; cbn [SpecFloat.iter_pos].
  - replace (W * 2 ^ Z.pos p~1) with (W * 2 * 2 ^ Z.pos p * 2 ^ Z.pos p).
    + apply IH; [lia| |]. { pose proof (Z.pow_pos_nonneg 2 (Z.pos p)); nia. }
      apply IH; [lia|lia|]. now apply located_shr_1.
    + rewrite (Pos2Z.inj_xI p), (Z.pow_add_r 2 (2 * Z.pos p) 1), Z.pow_twice_r by lia.
      ring.
  - replace (W * 2 ^ Z.pos p~0) with (W * 2 ^ Z.pos p * 2 ^ Z.pos p).
    + apply IH; [lia| |]. { pose proof (Z.pow_pos_nonneg 2 (Z.pos p)); nia. }
      now apply IH.
    + rewrite (Pos2Z.inj_xO p), Z.pow_twice_r. ring.
  - rewrite Z.pow_1_r. now apply located_shr_1.
Qed.

Lemma located_shr M W mrs e n :
  0 <= M -> 0 < W -> 0 <= n -> located M W mrs ->
  snd (shr mrs e n) = e + n /\ located M (W * 2 ^ n) (fst (shr mrs e n)).
Proof.
  intros HM HW Hn H. destruct n as [|p|p]; cbn [shr fst snd]; try lia.
  - rewrite Z.mul_1_r. split; [lia|assumption].
  - split; [reflexivity|]. now apply located_iter_shr_1.
Qed.

Lemma shr_nonpos mrs e n : n <= 0 -> shr mrs e n = (mrs, e).
Proof. destruct n; cbn; try lia; reflexivity. Qed.

Lemma located_exact m : 0 <= m -> located m 1 (shr_record_of_loc m loc_Exact).
Proof.
  intros H. unfold located. cbn. rewrite Z.div_1_r, Z.mod_1_r. repeat split.
Qed.

Lemma located_m M W m l : located M W (shr_record_of_loc m l) -> m = M / W.
Proof. intros (H & _). now rewrite shr_record_of_loc_m in H. Qed.

(** Rounding to nearest, ties to even, lands within half a unit. *)
Lemma round_nearest_even_located M W mrs :
  0 <= M -> 0 < W -> located M W mrs ->
  let m := round_nearest_even (shr_m mrs) (loc_of_shr_record mrs) in
  (m = M / W \/ m = M / W + 1) /\ 2 * Z.abs (m * W - M) <= W.
Proof.
  intros HM HW. destruct mrs as [m r s]. unfold located. cbn [shr_m shr_r shr_s].
  intros (Hm & Hr & Hs).
  pose proof (Z.mod_pos_bound M W HW) as Hb.
  pose proof (Z.div_mod M W ltac:(lia)) as Hdm.
  set (a := M mod W) in *. set (q := M / W) in *.
  destruct (Z.leb_spec W (2 * a)), (Z.eqb_spec a 0), (Z.eqb_spec (2 * a) W);
    cbn in Hs; subst r s m; cbn; try (destruct (Z.even q)); split; try lia; try nia.
Qed.

(** ** The rounding step of every operation *)

(** [binary_round_aux] on a mantissa [mx] that places [M / W], scaled by
    [2^ex]: when the exponent is not above the one of the format
    ([ex <= fexp ...]), the result is the integer [m1] nearest to
    [M / W1] (ties to even), scaled by [2^e1]. *)
Lemma binary_round_aux_spec s mx ex lx M W :
  0 <= M -> 0 < W -> located M W (shr_record_of_loc mx lx) ->
  ex <= fexp prec emax (Zdigits2 mx + ex) ->
  let e1 := fexp prec emax (Zdigits2 mx + ex) in
  let W1 := W * 2 ^ (e1 - ex) in
  exists m1,
    (m1 = M / W1 \/ m1 = M / W1 + 1) /\ 2 * Z.abs (m1 * W1 - M) <= W1 /\
    match binary_round_aux prec emax s mx ex lx with
    | S754_zero s' => s' = s /\ m1 = 0
    | S754_finite s' m e =>
        s' = s /\ e <= emax - prec /\ Zpos m < 2 ^ prec /\
        ((e = e1 /\ Zpos m = m1)
         \/ (e = e1 + 1 /\ m1 = 2 ^ prec /\ Zpos m = 2 ^ (prec - 1)))
    | S754_infinity s' => s' = s /\ 0 < m1 /\ emax - prec <= e1
    | S754_nan => False
    end.
Proof.
  intros HM HW Hloc Hex e1 W1.
  pose proof (located_m _ _ _ _ Hloc) as Hmx.
  assert (Hmx0 : 0 <= mx) by (rewrite Hmx; apply Z.div_pos; lia).
  assert (Hn1 : 0 <= e1 - ex) by (unfold e1; lia).
  assert (He1 : -1074 <= e1) by (unfold e1; rewrite fexp_eq; lia).
  assert (HW1 : 0 < W1).
  { unfold W1. pose proof (Z.pow_pos_nonneg 2 (e1 - ex)). nia. }
  unfold binary_round_aux, shr_fexp. fold e1.
  destruct (located_shr M W (shr_record_of_loc mx lx) ex (e1 - ex) HM HW Hn1 Hloc)
    as [He Hl1]. fold W1 in Hl1.
  destruct (shr (shr_record_of_loc mx lx) ex (e1 - ex)) as [mrs1 e1'].
  cbn [fst snd] in He, Hl1. replace e1' with e1 by lia. clear e1' He.
  destruct (round_nearest_even_located M W1 mrs1 HM HW1 Hl1) as [Hm1 Herr].
  set (m1 := round_nearest_even (shr_m mrs1) (loc_of_shr_record mrs1)) in *.
  exists m1. split; [exact Hm1|]. split; [exact Herr|].
  (* the integer part has at most [prec] digits *)
  assert (Hq : 0 <= M / W1 < 2 ^ prec).
  { split; [apply Z.div_pos; lia|].
    unfold W1. rewrite <- Z.div_div by (pose proof (Z.pow_pos_nonneg 2 (e1 - ex)); lia).
    rewrite <- Hmx.
    pose proof (Z.pow_pos_nonneg 2 (e1 - ex) ltac:(lia) Hn1) as Hp.
    apply Z.div_lt_upper_bound; [exact Hp|].
    rewrite <- Z.pow_add_r by (unfold prec; lia).
    destruct (Z.eq_dec mx 0) as [->|Hne].
    - apply Z.pow_pos_nonneg; unfold prec; lia.
    - pose proof (Zdigits2_spec mx ltac:(lia)) as [_ Hlt].
      eapply Z.lt_le_trans; [exact Hlt|].
      apply Z.pow_le_mono_r; [lia|].
      unfold e1, prec. rewrite fexp_eq. lia. }
  assert (Hm1r : 0 <= m1 <= 2 ^ prec) by lia.
  destruct (Z.eq_dec m1 (2 ^ prec)) as [Etop|Ntop].
  - (* the carry: one more shift, which is exact *)
    rewrite Etop.
    replace (fexp prec emax (Zdigits2 (2 ^ prec) + e1) - e1) with 1
      by (rewrite fexp_eq; change (Zdigits2 (2 ^ prec)) with 54; lia).
    cbn [shr SpecFloat.iter_pos]. change (shr_record_of_loc (2 ^ prec) loc_Exact)
      with (Build_shr_record (2 ^ prec) false false).
    change (shr_1 (Build_shr_record (2 ^ prec) false false))
      with (Build_shr_record (2 ^ (prec - 1)) false false).
    cbn [shr_m]. change (2 ^ (prec - 1)) with (Z.pos 4503599627370496).
    cbv iota.
    destruct (Z.leb_spec (e1 + 1) (emax - prec)).
    + split; [reflexivity|]. split; [assumption|].
      split; [reflexivity|]. right. repeat split.
    + split; [reflexivity|]. split; [unfold prec; cbn; lia|lia].
  - rewrite shr_nonpos.
    2:{ rewrite fexp_eq.
        pose proof (Zdigits2_lt_pow2 m1 prec ltac:(lia) ltac:(unfold prec; lia) ltac:(lia)).
        unfold prec in *. lia. }
    rewrite shr_record_of_loc_m.
    destruct m1 as [|p|p] eqn:Ep; [split; reflexivity| |lia].
    destruct (Z.leb_spec e1 (emax - prec)).
    + split; [reflexivity|]. split; [assumption|].
      split; [lia|]. left. split; reflexivity.
    + split; [reflexivity|]. split; lia.
Qed.

(** ** Values of rounded results *)

Lemma powerRZ_2_pos e : (0 < powerRZ 2 e)%R.
Proof. apply powerRZ_lt. lra. Qed.

Lemma powerRZ_10_pos e : (0 < powerRZ 10 e)%R.
Proof. apply powerRZ_lt. lra. Qed.

Lemma IZR_pow b k : 0 <= k -> IZR (b ^ k) = powerRZ (IZR b) k.
Proof.
  intros H. rewrite <- (Z2Nat.id k H). rewrite <- pow_IZR. now rewrite pow_powerRZ.
Qed.

Lemma powerRZ_2_add a b : powerRZ 2 (a + b) = (powerRZ 2 a * powerRZ 2 b)%R.
Proof. apply powerRZ_add. lra. Qed.

Lemma powerRZ_2_le a b : a <= b -> (powerRZ 2 a <= powerRZ 2 b)%R.
Proof.
  intros H. replace b with (a + (b - a)) by lia. rewrite powerRZ_2_add.
  assert (1 <= powerRZ 2 (b - a))%R.
  { rewrite <- (IZR_pow 2) by lia. apply IZR_le.
    pose proof (Z.pow_pos_nonneg 2 (b - a)). lia. }
  pose proof (powerRZ_2_pos a). nra.
Qed.

Lemma powerRZ_2_succ a : powerRZ 2 (a + 1) = (2 * powerRZ 2 a)%R.
Proof. rewrite powerRZ_2_add, powerRZ_1. lra. Qed.

(** The value of the result of [binary_round_aux] is within half a unit
    in the last place of the number it rounds. *)
Lemma binary_round_aux_value s mx ex lx M W s' m e :
  0 <= M -> 0 < W -> located M W (shr_record_of_loc mx lx) ->
  ex <= fexp prec emax (Zdigits2 mx + ex) ->
  binary_round_aux prec emax s mx ex lx = S754_finite s' m e ->
  s' = s
  /\ (Rabs (IZR (Zpos m) * powerRZ 2 e - IZR M / IZR W * powerRZ 2 ex)
      <= powerRZ 2 e / 2)%R.
Proof.
  intros HM HW Hloc Hex Hres.
  destruct (binary_round_aux_spec s mx ex lx M W HM HW Hloc Hex)
    as (m1 & _ & Herr & Hcase).
  rewrite Hres in Hcase. destruct Hcase as (-> & _ & _ & Hcase).
  split; [reflexivity|].
  set (e1 := fexp prec emax (Zdigits2 mx + ex)) in *.
  assert (Hn1 : 0 <= e1 - ex) by lia.
  (* the result is [m1 * 2^e1], and [e1 <= e] *)
  assert (Hv : (IZR (Zpos m) * powerRZ 2 e = IZR m1 * powerRZ 2 e1)%R /\ e1 <= e).
  { destruct Hcase as [[-> ->]|(-> & -> & ->)]; [split; [reflexivity|lia]|].
    split; [|lia]. rewrite !IZR_pow by (unfold prec; lia).
    rewrite powerRZ_2_succ. change (prec - 1) with 52. change prec with (52 + 1).
    rewrite (powerRZ_2_succ 52). lra. }
  destruct Hv as [Hv Hle]. rewrite Hv.
  apply Rle_trans with (powerRZ 2 e1 / 2)%R.
  2:{ pose proof (powerRZ_2_le e1 e Hle). lra. }
  set (t := powerRZ 2 (e1 - ex)).
  assert (Ht : (0 < t)%R) by apply powerRZ_2_pos.
  assert (He1 : powerRZ 2 e1 = (powerRZ 2 ex * t)%R).
  { unfold t. rewrite <- powerRZ_2_add. f_equal. lia. }
  pose proof (powerRZ_2_pos ex) as Ha.
  assert (Hw : (0 < IZR W)%R) by (apply IZR_lt; lia).
  assert (HE : (- (IZR W * t) <= 2 * (IZR m1 * (IZR W * t) - IZR M) <= IZR W * t)%R).
  { unfold t. rewrite <- (IZR_pow 2) by lia. rewrite <- !mult_IZR, <- minus_IZR.
    change 2%R with (IZR 2). rewrite <- !mult_IZR, <- opp_IZR.
    split; apply IZR_le; lia. }
  rewrite He1. set (a := powerRZ 2 ex) in *. set (w := IZR W) in *.
  set (y := (IZR M / w)%R).
  assert (Hy : IZR M = (y * w)%R) by (unfold y; field; lra).
  rewrite Hy in HE.
  assert (Hd : (- t <= 2 * (IZR m1 * t - y) <= t)%R) by (split; nra).
  apply Rabs_le. split; nra.
Qed.

(** In the range of normal numbers the result is a finite float whose
    mantissa has all its [prec] digits. *)
Lemma binary_round_aux_normal s mx ex lx M W :
  0 <= M -> 0 < W -> located M W (shr_record_of_loc mx lx) ->
  53 <= Zdigits2 mx ->
  -1074 <= Zdigits2 mx + ex - 53 < 971 ->
  exists m e,
    binary_round_aux prec emax s mx ex lx = S754_finite s m e
    /\ 2 ^ 52 <= Zpos m < 2 ^ 53
    /\ Zdigits2 mx + ex - 53 <= e <= Zdigits2 mx + ex - 52
    /\ (Rabs (IZR (Zpos m) * powerRZ 2 e - IZR M / IZR W * powerRZ 2 ex)
        <= powerRZ 2 e / 2)%R.
Proof.
  intros HM HW Hloc Hd Hr.
  assert (Hex : ex <= fexp prec emax (Zdigits2 mx + ex)) by (rewrite fexp_eq; lia).
  pose proof (binary_round_aux_value s mx ex lx M W) as Hval.
  destruct (binary_round_aux_spec s mx ex lx M W HM HW Hloc Hex)
    as (m1 & Hm1 & _ & Hcase).
  assert (He1 : fexp prec emax (Zdigits2 mx + ex) = Zdigits2 mx + ex - 53)
    by (rewrite fexp_eq; lia).
  rewrite He1 in *.
  replace (Zdigits2 mx + ex - 53 - ex) with (Zdigits2 mx - 53) in Hm1 by lia.
  (* the integer part has exactly [prec] digits *)
  assert (Hq : 2 ^ 52 <= M / (W * 2 ^ (Zdigits2 mx - 53))).
  { rewrite <- Z.div_div by (pose proof (Z.pow_pos_nonneg 2 (Zdigits2 mx - 53)); lia).
    rewrite <- (located_m _ _ _ _ Hloc).
    assert (0 <= mx) by (rewrite (located_m _ _ _ _ Hloc); apply Z.div_pos; lia).
    assert (0 < mx) by (destruct mx; cbn in Hd; lia).
    pose proof (Zdigits2_spec mx ltac:(lia)) as [Hlo _].
    apply Z.div_le_lower_bound; [apply Z.pow_pos_nonneg; lia|].
    rewrite <- Z.pow_add_r by lia.
    replace (Zdigits2 mx - 53 + 52) with (Zdigits2 mx - 1) by lia. exact Hlo. }
  destruct (binary_round_aux prec emax s mx ex lx) as [s'|s'| |s' m e] eqn:Hres.
  - destruct Hcase as [_ ->]. lia.
  - unfold emax, prec in Hcase. lia.
  - contradiction.
  - destruct Hcase as (-> & Hemax & Hlt & Hcase). exists m, e.
    split; [reflexivity|].
    destruct (Hval s m e HM HW Hloc Hex eq_refl) as [_ Hb].
    change (2 ^ prec) with (2 ^ 53) in Hlt.
    split; [|split; [|exact Hb]].
    + split; [|exact Hlt].
      destruct Hcase as [[_ E]|(_ & _ & E)]; rewrite E;
        [lia|change (prec - 1) with 52; lia].
    + destruct Hcase as [[-> _]|(-> & _)]; lia.
Qed.

(** ** Multiplication *)

Lemma float_mul_normal sx mx ex sy my ey :
  2 ^ 52 <= Zpos mx < 2 ^ 53 -> 2 ^ 52 <= Zpos my < 2 ^ 53 ->
  -1126 <= ex + ey < 918 ->
  exists m e,
    float_mul (S754_finite sx mx ex) (S754_finite sy my ey)
    = S754_finite (xorb sx sy) m e
    /\ 2 ^ 52 <= Zpos m < 2 ^ 53
    /\ (Rabs (IZR (Zpos m) * powerRZ 2 e
              - (IZR (Zpos mx) * powerRZ 2 ex) * (IZR (Zpos my) * powerRZ 2 ey))
        <= powerRZ 2 e / 2)%R.
Proof.
  intros Hx Hy Hr. unfold float_mul, SFmul.
  assert (Hlo : 105 <= Zdigits2 (Zpos (mx * my))).
  { apply (Zdigits2_ge_pow2 _ 104); [lia|]. rewrite Pos2Z.inj_mul.
    change (2 ^ 104) with (2 ^ 52 * 2 ^ 52). nia. }
  assert (Hhi : Zdigits2 (Zpos (mx * my)) <= 106).
  { apply Zdigits2_lt_pow2; [lia|lia|]. rewrite Pos2Z.inj_mul.
    change (2 ^ 106) with (2 ^ 53 * 2 ^ 53). nia. }
  destruct (binary_round_aux_normal (xorb sx sy) (Zpos (mx * my)) (ex + ey) loc_Exact
              (Zpos (mx * my)) 1) as (m & e & Hres & Hm & _ & Hb);
    [lia|lia|apply located_exact; lia|lia|lia|].
  exists m, e. split; [exact Hres|]. split; [exact Hm|].
  replace ((IZR (Zpos mx) * powerRZ 2 ex) * (IZR (Zpos my) * powerRZ 2 ey))%R
    with (IZR (Zpos (mx * my)) / IZR 1 * powerRZ 2 (ex + ey))%R; [exact Hb|].
  rewrite Pos2Z.inj_mul, mult_IZR, powerRZ_2_add. field.
Qed.

(** ** Division of integers: reading a fraction *)

Lemma new_location_located M W :
  0 <= M -> 0 < W ->
  located M W (shr_record_of_loc (M / W) (new_location W (M mod W))).
Proof.
  intros HM HW. unfold located. rewrite shr_record_of_loc_m.
  split; [reflexivity|].
  pose proof (Z.mod_pos_bound M W HW) as Hb. set (a := M mod W) in *.
  unfold new_location, new_location_even, new_location_odd.
  destruct (Z.even W) eqn:Ev.
  - destruct (Z.eqb_spec a 0) as [->|Ha].
    + change (0 mod W) with 0 in *. rewrite Z.mul_0_r.
      destruct (Z.leb_spec W 0); [lia|]. split; reflexivity.
    + destruct (Z.compare_spec (2 * a) W); cbn;
        destruct (Z.leb_spec W (2 * a)), (Z.eqb_spec (2 * a) W);
        split; try reflexivity; lia.
  - assert (Hodd : Z.odd W = true) by (rewrite <- Z.negb_even, Ev; reflexivity).
    apply Z.odd_spec in Hodd as [k Hk].
    destruct (Z.eqb_spec a 0) as [->|Ha].
    + change (0 mod W) with 0 in *. rewrite Z.mul_0_r.
      destruct (Z.leb_spec W 0); [lia|]. split; reflexivity.
    + destruct (Z.compare_spec (2 * a + 1) W); cbn;
        destruct (Z.leb_spec W (2 * a)), (Z.eqb_spec (2 * a) W);
        split; try reflexivity; lia.
Qed.

(** What [SFdiv] hands to the rounding step for [n / d]. *)
Lemma SFdiv_core_binary_spec n d :
  let e' := Z.min (fexp prec emax (Zdigits2 (Zpos n) - Zdigits2 (Zpos d))) 0 in
  let M := Zpos n * 2 ^ (- e') in
  SFdiv_core_binary prec emax (Zpos n) 0 (Zpos d) 0
  = (M / Zpos d, e', new_location (Zpos d) (M mod Zpos d)).
Proof.
  intros e' M. unfold SFdiv_core_binary.
  rewrite !Z.add_0_r. change (0 - 0) with 0. fold e'.
  replace (0 - e') with (- e') by lia.
  assert (He : e' <= 0) by (unfold e'; lia).
  assert (Hm : match - e' with
               | 0 => Zpos n
               | Zpos _ => Z.shiftl (Zpos n) (- e')
               | Zneg _ => 0
               end = M).
  { unfold M. destruct (- e') as [|p|p] eqn:E; [cbn; lia| |lia].
    now rewrite Z.shiftl_mul_pow2. }
  rewrite Hm. unfold Z.div, Z.modulo.
  now destruct (Z.div_eucl M (Zpos d)).
Qed.

Lemma SFdiv_core_binary_exponent n d :
  let e' := Z.min (fexp prec emax (Zdigits2 (Zpos n) - Zdigits2 (Zpos d))) 0 in
  let q := Zpos n * 2 ^ (- e') / Zpos d in
  e' <= fexp prec emax (Zdigits2 q + e').
Proof.
  intros e' q. rewrite fexp_eq. unfold e' in *. rewrite fexp_eq in *.
  set (d1 := Zdigits2 (Zpos n)) in *. set (d2 := Zdigits2 (Zpos d)) in *.
  pose proof (Zdigits2_spec (Zpos n) ltac:(lia)) as [Hn _]. fold d1 in Hn.
  pose proof (Zdigits2_spec (Zpos d) ltac:(lia)) as [_ Hd]. fold d2 in Hd.
  assert (H1 : 0 < d1) by (apply Zdigits2_pos; lia).
  assert (H2 : 0 < d2) by (apply Zdigits2_pos; lia).
  destruct (Z.le_gt_cases (d1 - d2 - 53) (-1074)) as [HA|HB]; [lia|].
  (* in both remaining cases the quotient has at least 53 digits *)
  set (s := - Z.min (Z.max (d1 - d2 - 53) (-1074)) 0) in *.
  assert (Hs : 0 <= s) by (unfold s; lia).
  assert (Hk : 0 <= d1 - 1 + s - d2) by (unfold s; lia).
  assert (Hq : 2 ^ (d1 - 1 + s - d2) <= q).
  { unfold q. apply Z.div_le_lower_bound; [lia|].
    apply Z.le_trans with (2 ^ d2 * 2 ^ (d1 - 1 + s - d2)).
    - apply Z.mul_le_mono_nonneg_r; [apply Z.pow_nonneg|]; lia.
    - rewrite <- Z.pow_add_r by lia.
      replace (d2 + (d1 - 1 + s - d2)) with (d1 - 1 + s) by lia.
      rewrite Z.pow_add_r by lia.
      apply Z.mul_le_mono_nonneg_r; [apply Z.pow_nonneg; lia|exact Hn]. }
  pose proof (Zdigits2_ge_pow2 q _ Hk Hq). unfold s in *. lia.
Qed.

Lemma SFdiv_integers_value sx n d s m e :
  SFdiv prec emax (S754_finite sx n 0) (S754_finite false d 0) = S754_finite s m e ->
  s = sx
  /\ (Rabs (IZR (Zpos m) * powerRZ 2 e - IZR (Zpos n) / IZR (Zpos d))
      <= powerRZ 2 e / 2)%R.
Proof.
  unfold SFdiv. rewrite SFdiv_core_binary_spec.
  set (e' := Z.min (fexp prec emax (Zdigits2 (Zpos n) - Zdigits2 (Zpos d))) 0).
  set (M := Zpos n * 2 ^ (- e')).
  assert (He : e' <= 0) by (unfold e'; lia).
  assert (HM : 0 <= M).
  { unfold M. pose proof (Z.pow_nonneg 2 (- e')). nia. }
  intros Hres.
  destruct (binary_round_aux_value (xorb sx false) (M / Zpos d) e'
              (new_location (Zpos d) (M mod Zpos d)) M (Zpos d) s m e HM
              ltac:(lia) (new_location_located M (Zpos d) HM ltac:(lia))
              (SFdiv_core_binary_exponent n d) Hres) as [-> Hb].
  split; [now destruct sx|].
  replace (IZR (Zpos n) / IZR (Zpos d))%R
    with (IZR M / IZR (Zpos d) * powerRZ 2 e')%R; [exact Hb|].
  unfold M. rewrite mult_IZR, (IZR_pow 2) by lia.
  assert (Hp : (powerRZ 2 (- e') * powerRZ 2 e' = 1)%R).
  { rewrite <- powerRZ_2_add. replace (- e' + e') with 0 by lia. reflexivity. }
  assert (IZR (Zpos d) <> 0)%R by (apply not_0_IZR; lia).
  change (IZR 2) with 2%R.
  transitivity (IZR (Zpos n) / IZR (Zpos d) * (powerRZ 2 (- e') * powerRZ 2 e'))%R;
    [field; assumption|rewrite Hp; field; assumption].
Qed.

Lemma SFdiv_integers_normal sx n d :
  -1021 <= Zdigits2 (Zpos n) - Zdigits2 (Zpos d) <= 53 ->
  exists m e,
    SFdiv prec emax (S754_finite sx n 0) (S754_finite false d 0) = S754_finite sx m e
    /\ 2 ^ 52 <= Zpos m < 2 ^ 53
    /\ Zdigits2 (Zpos n) - Zdigits2 (Zpos d) - 53 <= e
       <= Zdigits2 (Zpos n) - Zdigits2 (Zpos d) - 51
    /\ (Rabs (IZR (Zpos m) * powerRZ 2 e - IZR (Zpos n) / IZR (Zpos d))
        <= powerRZ 2 e / 2)%R.
Proof.
  intros Hr.
  pose proof (SFdiv_integers_value sx n d) as Hval.
  unfold SFdiv in *. rewrite SFdiv_core_binary_spec in *.
  set (d1 := Zdigits2 (Zpos n)) in *. set (d2 := Zdigits2 (Zpos d)) in *.
  assert (He : Z.min (fexp prec emax (d1 - d2)) 0 = d1 - d2 - 53)
    by (rewrite fexp_eq; lia).
  rewrite He in *. replace (- (d1 - d2 - 53)) with (53 + d2 - d1) in * by lia.
  set (M := Zpos n * 2 ^ (53 + d2 - d1)) in *.
  pose proof (Zdigits2_spec (Zpos n) ltac:(lia)) as Hn. fold d1 in Hn.
  pose proof (Zdigits2_spec (Zpos d) ltac:(lia)) as Hd. fold d2 in Hd.
  assert (H1 : 0 < d1) by (apply Zdigits2_pos; lia).
  assert (H2 : 0 < d2) by (apply Zdigits2_pos; lia).
  assert (HM : 0 <= M).
  { unfold M. pose proof (Z.pow_nonneg 2 (53 + d2 - d1)). nia. }
  assert (HMlo : 2 ^ d2 * 2 ^ 52 <= M).
  { unfold M. rewrite <- Z.pow_add_r by lia.
    replace (d2 + 52) with (d1 - 1 + (53 + d2 - d1)) by lia.
    rewrite Z.pow_add_r by lia.
    apply Z.mul_le_mono_nonneg_r; [apply Z.pow_nonneg; lia|lia]. }
  assert (HMhi : M < 2 ^ (d2 - 1) * 2 ^ 54).
  { unfold M. rewrite <- Z.pow_add_r by lia.
    replace (d2 - 1 + 54) with (d1 + (53 + d2 - d1)) by lia.
    rewrite Z.pow_add_r by lia.
    apply Z.mul_lt_mono_pos_r; [apply Z.pow_pos_nonneg; lia|lia]. }
  assert (Hq : 2 ^ 52 <= M / Zpos d < 2 ^ 54).
  { split.
    - apply Z.div_le_lower_bound; [lia|]. nia.
    - apply Z.div_lt_upper_bound; [lia|]. nia. }
  assert (Hdq : 53 <= Zdigits2 (M / Zpos d) <= 54).
  { split; [apply (Zdigits2_ge_pow2 _ 52); lia|apply Zdigits2_lt_pow2; lia]. }
  destruct (binary_round_aux_normal (xorb sx false) (M / Zpos d) (d1 - d2 - 53)
              (new_location (Zpos d) (M mod Zpos d)) M (Zpos d) HM ltac:(lia)
              (new_location_located M (Zpos d) HM ltac:(lia)))
    as (m & e & Hres & Hm & He' & _); [lia|lia|].
  exists m, e. replace (xorb sx false) with sx in * by now destruct sx.
  split; [exact Hres|]. split; [exact Hm|]. split; [lia|].
  now destruct (Hval sx m e Hres).
Qed.

(** ** Integers as floats *)

Lemma iter_xO_pow2 p d : Zpos (Pos.iter xO p d) = Zpos p * 2 ^ Zpos d.
Proof.
  induction d as [|d IH] using Pos.peano_ind.
  - cbn. lia.
  - rewrite Pos.iter_succ, Pos2Z.inj_xO, IH, Pos2Z.inj_succ, Z.pow_succ_r by lia. ring.
Qed.

Lemma shl_align_spec p k :
  k <= 0 ->
  snd (shl_align p 0 k) = k /\ Zpos (fst (shl_align p 0 k)) = Zpos p * 2 ^ (- k).
Proof.
  intros Hk. unfold shl_align. rewrite Z.sub_0_r.
  destruct k as [|q|q]; [cbn; lia|lia|].
  cbn [fst snd]. split; [reflexivity|apply iter_xO_pow2].
Qed.

(** An integer below [2^53] in magnitude converts without rounding. *)
Lemma int_to_float_exact z :
  z <> 0 -> Z.abs z < 2 ^ 53 ->
  exists m e,
    int_to_float z = Returned (S754_finite (z <? 0) m e)
    /\ 2 ^ 52 <= Zpos m < 2 ^ 53
    /\ -52 <= e <= 0
    /\ (IZR (Zpos m) * powerRZ 2 e = IZR (Z.abs z))%R.
Proof.
  intros Hz Hlt.
  assert (Hgen : forall s p, Zpos p < 2 ^ 53 ->
            exists m e,
              binary_round prec emax s p 0 = S754_finite s m e
              /\ 2 ^ 52 <= Zpos m < 2 ^ 53 /\ -52 <= e <= 0
              /\ (IZR (Zpos m) * powerRZ 2 e = IZR (Zpos p))%R).
  { intros s p Hp. unfold binary_round.
    pose proof (Zdigits2_spec (Zpos p) ltac:(lia)) as Hd.
    pose proof (Zdigits2_pos (Zpos p) ltac:(lia)) as Hd0.
    pose proof (Zdigits2_lt_pow2 (Zpos p) 53 ltac:(lia) ltac:(lia) Hp) as Hd53.
    change (Zpos (digits2_pos p)) with (Zdigits2 (Zpos p)).
    set (dp := Zdigits2 (Zpos p)) in *.
    assert (Hk : fexp prec emax (dp + 0) = dp - 53) by (rewrite fexp_eq; lia).
    rewrite Hk.
    destruct (shl_align_spec p (dp - 53) ltac:(lia)) as [Hez Hmz].
    destruct (shl_align p 0 (dp - 53)) as [mz ez]. cbn [fst snd] in Hez, Hmz.
    subst ez. replace (- (dp - 53)) with (53 - dp) in Hmz by lia.
    assert (Hmzr : 2 ^ 52 <= Zpos mz < 2 ^ 53).
    { rewrite Hmz. split.
      - replace 52 with (dp - 1 + (53 - dp)) at 1 by lia.
        rewrite Z.pow_add_r by lia.
        apply Z.mul_le_mono_nonneg_r; [apply Z.pow_nonneg; lia|lia].
      - replace 53 with (dp + (53 - dp)) at 2 by lia.
        rewrite Z.pow_add_r by lia.
        apply Z.mul_lt_mono_pos_r; [apply Z.pow_pos_nonneg; lia|lia]. }
    assert (Hdz : Zdigits2 (Zpos mz) = 53) by (apply Zdigits2_unique; [lia|exact Hmzr]).
    destruct (binary_round_aux_spec s (Zpos mz) (dp - 53) loc_Exact (Zpos mz) 1)
      as (m1 & _ & Herr & Hcase);
      [lia|lia|apply located_exact; lia|rewrite Hdz, fexp_eq; lia|].
    rewrite Hdz in Herr, Hcase.
    assert (He1 : fexp prec emax (53 + (dp - 53)) = dp - 53) by (rewrite fexp_eq; lia).
    rewrite He1 in Herr, Hcase.
    replace (dp - 53 - (dp - 53)) with 0 in Herr by lia.
    change (1 * 2 ^ 0) with 1 in Herr.
    assert (Hm1 : m1 = Zpos mz) by lia. subst m1.
    destruct (binary_round_aux prec emax s (Zpos mz) (dp - 53) loc_Exact)
      as [s'|s'| |s' m e].
    - destruct Hcase as [_ Hc]. lia.
    - destruct Hcase as (_ & _ & Hc). unfold emax, prec in Hc. lia.
    - contradiction.
    - destruct Hcase as (-> & _ & _ & Hc).
      change (2 ^ prec) with (2 ^ 53) in Hc.
      destruct Hc as [[-> Hm]|(_ & Hc & _)]; [|lia].
      exists m, (dp - 53). split; [reflexivity|]. rewrite Hm.
      split; [exact Hmzr|]. split; [lia|].
      rewrite Hmz, mult_IZR, (IZR_pow 2) by lia. change (IZR 2) with 2%R.
      rewrite Rmult_assoc, <- powerRZ_2_add.
      replace (53 - dp + (dp - 53)) with 0 by lia. cbn. lra. }
  unfold int_to_float, binary_normalize.
  destruct z as [|p|p]; [lia| |].
  - destruct (Hgen false p Hlt) as (m & e & -> & H). exists m, e. now split.
  - destruct (Hgen true p Hlt) as (m & e & -> & H). exists m, e. now split.
Qed.

Lemma int_to_float_zero : int_to_float 0 = Returned (S754_zero false).
Proof. reflexivity. Qed.

(** ** Reading a decimal numeral *)

Lemma float_eqb_eq x y : float_eqb x y = true -> x = y.
Proof.
  destruct x as [a|a| |a m e], y as [b|b| |b m' e']; cbn; try discriminate;
    try (intros H; apply Bool.eqb_prop in H; congruence); [reflexivity|].
  intros H. apply andb_prop in H as [H He]. apply andb_prop in H as [Hs Hm].
  apply Bool.eqb_prop in Hs. apply Pos.eqb_eq in Hm. apply Z.eqb_eq in He.
  congruence.
Qed.

(** A numeral that reads as the positive float [m * 2^e] is within half a
    unit in the last place of it. *)
Lemma float_of_decimal_value a b s m e :
  0 < a -> float_of_decimal a b = S754_finite s m e ->
  s = false
  /\ (Rabs (IZR (Zpos m) * powerRZ 2 e - IZR a * powerRZ 10 b) <= powerRZ 2 e / 2)%R.
Proof.
  intros Ha. unfold float_of_decimal, float_of_fraction.
  destruct (Z.leb_spec 0 b) as [Hb|Hb].
  - assert (Hp : 0 < a * 10 ^ b) by (pose proof (Z.pow_pos_nonneg 10 b); nia).
    destruct (a * 10 ^ b) as [|p|p] eqn:E; try lia.
    intros H. apply SFdiv_integers_value in H as [-> H]. split; [reflexivity|].
    replace (IZR a * powerRZ 10 b)%R with (IZR (Zpos p) / IZR 1)%R; [exact H|].
    rewrite <- E, mult_IZR, (IZR_pow 10) by lia. change (IZR 10) with 10%R. field.
  - destruct a as [|p|p]; try lia.
    intros H. apply SFdiv_integers_value in H as [-> H]. split; [reflexivity|].
    replace (IZR (Zpos p) * powerRZ 10 b)%R
      with (IZR (Zpos p) / IZR (Zpos (Z.to_pos (10 ^ (- b)))))%R; [exact H|].
    rewrite Z2Pos.id by (apply Z.pow_pos_nonneg; lia).
    rewrite (IZR_pow 10) by lia. change (IZR 10) with 10%R.
    replace b with (- - b) at 2 by lia. rewrite (powerRZ_neg' 10 (- b)).
    reflexivity.
Qed.

(** ** The numeral of [repr] *)

Lemma repr_candidate_reads x n d k nd c :
  repr_candidate x n d k nd = Some c -> float_of_decimal (dmant c) (dexp c) = x.
Proof.
  unfold repr_candidate.
  set (p := nd - 1 - k).
  set (lo := (if 0 <=? p then n * 10 ^ p else n) / (if 0 <=? p then d else d * 10 ^ (- p))).
  destruct (float_eqb (float_of_decimal lo (- p)) x) eqn:E1,
    (negb _ && float_eqb (float_of_decimal (lo + 1) (- p)) x) eqn:E2;
    intros [= <-]; cbn [dmant dexp].
  - apply andb_prop in E2 as [_ E2].
    repeat match goal with |- context [if ?b then _ else _] => destruct b end;
      now apply float_eqb_eq.
  - now apply float_eqb_eq.
  - apply andb_prop in E2 as [_ E2]. now apply float_eqb_eq.
Qed.

Lemma repr_search_reads x n d k fuel : forall nd c,
  repr_search x n d k nd fuel = Some c -> float_of_decimal (dmant c) (dexp c) = x.
Proof.
  induction fuel as [|fuel IH]; intros nd c; cbn; [discriminate|].
  destruct (repr_candidate x n d k nd) as [c'|] eqn:E.
  - intros [= <-]. eapply repr_candidate_reads; eauto.
  - apply IH.
Qed.

Lemma exact_decimal_value m e :
  decimal_value (exact_decimal m e) = (IZR (Zpos m) * powerRZ 2 e)%R.
Proof.
  unfold exact_decimal, decimal_value.
  destruct (Z.leb_spec 0 e) as [He|He]; cbn [dmant dexp].
  - rewrite mult_IZR, (IZR_pow 2) by lia. cbn. change (IZR 2) with 2%R. lra.
  - rewrite mult_IZR, (IZR_pow 5) by lia. change (IZR 5) with 5%R.
    replace 10%R with (5 * 2)%R by lra. rewrite powerRZ_mult.
    assert (H : (powerRZ 5 (- e) * powerRZ 5 e = 1)%R).
    { rewrite <- powerRZ_add by lra. replace (- e + e) with 0 by lia. reflexivity. }
    transitivity (IZR (Zpos m) * (powerRZ 5 (- e) * powerRZ 5 e) * powerRZ 2 e)%R;
      [ring|rewrite H; ring].
Qed.

(** [repr] of a finite float is a signed numeral whose magnitude reads
    back as the magnitude of the float, or is its exact expansion. *)
Lemma float_repr_spec s m e :
  exists a b,
    float_repr (S754_finite s m e) = Decimal (cond_Zopp s a) b
    /\ 0 <= a
    /\ (float_of_decimal a b = S754_finite false m e
        \/ (IZR a * powerRZ 10 b = IZR (Zpos m) * powerRZ 2 e)%R).
Proof.
  unfold float_repr, fraction_of.
  assert (H : forall n d, (n, d) = (if 0 <=? e then (Z.pos m * 2 ^ e, 1) else (Z.pos m, 2 ^ (- e)))
                          -> 0 <= n /\ 0 < d).
  { intros n d. pose proof (Z.pow_nonneg 2 e ltac:(lia)).
    destruct (Z.leb_spec 0 e); intros [= -> ->].
    - split; [nia|lia].
    - split; [lia|apply Z.pow_pos_nonneg; lia]. }
  destruct (if 0 <=? e then _ else _) as [n d]. destruct (H n d eq_refl) as [Hn Hd].
  destruct (repr_search (S754_finite false m e) n d (decimal_exponent n d) 1 17)
    as [c|] eqn:E.
  - exists (dmant c), (dexp c). split; [reflexivity|].
    split; [eapply repr_search_nonneg; eauto|].
    left. eapply repr_search_reads; eauto.
  - exists (dmant (exact_decimal m e)), (dexp (exact_decimal m e)).
    split; [reflexivity|]. split.
    + unfold exact_decimal. destruct (0 <=? e); cbn;
        (apply Z.mul_nonneg_nonneg; [lia|]; apply Z.pow_nonneg; lia).
    + right. apply exact_decimal_value.
Qed.

(** ** Rounding a numeral to hundredths *)

Lemma Rabs_le_inv x a : (Rabs x <= a)%R -> (- a <= x <= a)%R.
Proof. unfold Rabs. destruct (Rcase_abs x); lra. Qed.

Lemma Rabs_lt_inv x a : (Rabs x < a)%R -> (- a < x < a)%R.
Proof. unfold Rabs. destruct (Rcase_abs x); lra. Qed.

Lemma powerRZ_10_2 : powerRZ 10 2 = 100%R.
Proof. unfold powerRZ. simpl. lra. Qed.

Lemma round_half_away_opp s a b scale :
  round_half_away (Decimal (cond_Zopp s a) b) scale
  = cond_Zopp s (round_half_away (Decimal a b) scale).
Proof.
  destruct s; [|reflexivity]. unfold round_half_away. cbn [dmant dexp cond_Zopp].
  destruct (0 <=? b + scale); [ring|].
  rewrite Z.sgn_opp, Z.abs_opp. ring.
Qed.

(** A numeral within less than half a hundredth of [P] hundredths rounds
    to [P]. *)
Lemma round_half_away_nearest a b P :
  0 <= a ->
  (Rabs (100 * (IZR a * powerRZ 10 b) - IZR P) < 1 / 2)%R ->
  round_half_away (Decimal a b) 2 = P.
Proof.
  intros Ha H. apply Rabs_lt_inv in H. unfold round_half_away. cbn [dmant dexp].
  destruct (Z.leb_spec 0 (b + 2)) as [Hb|Hb].
  - assert (E : (100 * (IZR a * powerRZ 10 b) = IZR (a * 10 ^ (b + 2)))%R).
    { rewrite mult_IZR, (IZR_pow 10) by lia. change (IZR 10) with 10%R.
      rewrite powerRZ_add, powerRZ_10_2 by lra. ring. }
    rewrite E in H. rewrite <- minus_IZR in H.
    assert (-1 < a * 10 ^ (b + 2) - P < 1).
    { split; apply lt_IZR; cbn; lra. }
    lia.
  - set (k := - (b + 2)) in *. assert (Hk : 0 < k) by (unfold k; lia).
    set (p := 10 ^ k).
    assert (Hp : 0 < p) by (apply Z.pow_pos_nonneg; lia).
    assert (Hp2 : p = 2 * (p / 2)).
    { assert (Hmod : p mod 2 = 0).
      { unfold p. replace k with (Z.succ (k - 1)) by lia.
        rewrite Z.pow_succ_r by lia.
        replace (10 * 10 ^ (k - 1)) with (5 * 10 ^ (k - 1) * 2) by ring.
        apply Z.mod_mul. lia. }
      pose proof (Z.div_mod p 2 ltac:(lia)). lia. }
    set (h := p / 2) in *.
    assert (E : (100 * (IZR a * powerRZ 10 b) * IZR p = IZR a)%R).
    { unfold p. rewrite (IZR_pow 10) by lia. change (IZR 10) with 10%R.
      assert (Hpp : (100 * powerRZ 10 b * powerRZ 10 k = 1)%R).
      { rewrite <- powerRZ_10_2.
        rewrite <- !powerRZ_add by lra.
        replace (2 + b + k) with 0 by (unfold k; lia). reflexivity. }
      transitivity (IZR a * (100 * powerRZ 10 b * powerRZ 10 k))%R;
        [ring|rewrite Hpp; ring]. }
    assert (HpR : (0 < IZR p)%R) by (apply IZR_lt; lia).
    (* 2 * |a - P * p| < p *)
    assert (Hlo : (2 * P - 1) * p < 2 * a).
    { apply lt_IZR. rewrite !mult_IZR, minus_IZR, mult_IZR. cbn [IZR IPR IPR_2].
      rewrite <- E. nra. }
    assert (Hhi : 2 * a < (2 * P + 1) * p).
    { apply lt_IZR. rewrite !mult_IZR, plus_IZR, mult_IZR. cbn [IZR IPR IPR_2].
      rewrite <- E. nra. }
    assert (HP : 0 <= P) by nia.
    destruct (Z.eq_dec a 0) as [->|Hne].
    + cbn. nia.
    + replace (Z.sgn a) with 1 by (symmetry; apply Z.sgn_pos; lia).
      rewrite Z.abs_eq by lia. rewrite Z.mul_1_l.
      symmetry. apply (Z.div_unique_pos _ _ _ (a + h - P * p)); [|ring].
      nia.
Qed.

(** ** A price of two decimals times a quantity *)

(** The price [cents / 100] as a float. *)
Lemma price_float_normal cents :
  cents <> 0 -> Z.abs cents < 10 ^ 10 ->
  exists m e,
    float_of_decimal cents (-2) = S754_finite (cents <? 0) m e
    /\ 2 ^ 52 <= Zpos m < 2 ^ 53
    /\ -59 <= e <= -24
    /\ (Rabs (IZR (Zpos m) * powerRZ 2 e - IZR (Z.abs cents) / 100) <= powerRZ 2 e / 2)%R.
Proof.
  intros Hc Hlt.
  assert (Hgen : forall s p, Zpos p < 10 ^ 10 ->
            exists m e,
              SFdiv prec emax (S754_finite s p 0) (S754_finite false 100 0)
              = S754_finite s m e
              /\ 2 ^ 52 <= Zpos m < 2 ^ 53 /\ -59 <= e <= -24
              /\ (Rabs (IZR (Zpos m) * powerRZ 2 e - IZR (Zpos p) / 100)
                  <= powerRZ 2 e / 2)%R).
  { intros s p Hp.
    pose proof (Zdigits2_pos (Zpos p) ltac:(lia)) as Hd0.
    assert (Hd : Zdigits2 (Zpos p) <= 34).
    { apply Zdigits2_lt_pow2; [lia|lia|].
      eapply Z.lt_trans; [exact Hp|reflexivity]. }
    destruct (SFdiv_integers_normal s p 100) as (m & e & Hres & Hm & He & Hb).
    { change (Zdigits2 (Zpos 100)) with 7. lia. }
    change (Zdigits2 (Zpos 100)) with 7 in He.
    exists m, e. repeat split; try assumption; lia. }
  unfold float_of_decimal, float_of_fraction.
  change (0 <=? -2) with false. cbv iota.
  change (Z.to_pos (10 ^ (- -2))) with 100%positive.
  destruct cents as [|p|p]; [lia| |].
  - exact (Hgen false p Hlt).
  - exact (Hgen true p Hlt).
Qed.

Lemma float_of_decimal_zero b : float_of_decimal 0 b = S754_zero false.
Proof.
  unfold float_of_decimal. destruct (0 <=? b); [|reflexivity].
  now rewrite Z.mul_0_l.
Qed.

(** [float] of a price of two decimals. *)
Lemma py_float_json_price f cents v :
  json_price cents v -> Z.abs cents < 10 ^ 10 ->
  exists x, py_float f v = Returned x /\ price_float cents x.
Proof.
  intros [->|(k & -> & ->)] Hc.
  - exists (float_of_decimal cents (-2)). split; [reflexivity|].
    destruct (Z.eq_dec cents 0) as [->|Hc0]; [left; split; reflexivity|].
    right. split; [exact Hc0|].
    destruct (price_float_normal cents Hc0 Hc) as (m & e & Hx & Hm & He & Hv).
    exists m, e. repeat split; try assumption; lia.
  - destruct (Z.eq_dec k 0) as [->|Hk0].
    + exists (S754_zero false). split; [reflexivity|]. left. split; reflexivity.
    + destruct (int_to_float_exact k Hk0 ltac:(lia)) as (m & e & Hx & Hm & He & Hv).
      exists (S754_finite (k <? 0) m e). split; [exact Hx|].
      right. split; [lia|]. exists m, e.
      replace (100 * k <? 0) with (k <? 0)
        by (destruct (Z.ltb_spec k 0), (Z.ltb_spec (100 * k) 0); lia || reflexivity).
      split; [reflexivity|]. split; [exact Hm|]. split; [lia|].
      rewrite Hv. replace (Z.abs (100 * k)) with (100 * Z.abs k) by lia.
      rewrite mult_IZR.
      replace (IZR (Z.abs k) - IZR 100 * IZR (Z.abs k) / 100)%R with 0%R by (cbn; field).
      rewrite Rabs_R0. pose proof (powerRZ_2_pos e). lra.
Qed.

(** The stored total of a two-decimal price times a quantity is their
    exact product, as long as it fits the column. *)
Lemma total_of_price x cents q :
  price_float cents x -> Z.abs q < 2 ^ 53 -> Z.abs (cents * q) < 10 ^ 10 ->
  exists y,
    int_to_float q = Returned y
    /\ to_numeric_10_2 (float_mul x y) = Returned (Num (cents * q)).
Proof.
  intros Hx Hq Hcq.
  destruct (Z.eq_dec q 0) as [->|Hq0].
  { exists (S754_zero false). split; [reflexivity|]. rewrite Z.mul_0_r.
    destruct Hx as [[_ ->]|(_ & m & e & -> & _)]; reflexivity. }
  destruct (int_to_float_exact q Hq0 Hq) as (mq & eq & Hy & Hmq & Heq & Hvq).
  exists (S754_finite (q <? 0) mq eq). split; [exact Hy|].
  destruct Hx as [[-> ->]|(Hc0 & mx & ex & -> & Hmx & Hex & Hvx)]; [reflexivity|].
  destruct (float_mul_normal (cents <? 0) mx ex (q <? 0) mq eq Hmx Hmq ltac:(lia))
    as (m & e & -> & Hm & Hv).
  set (s := xorb (cents <? 0) (q <? 0)).
  assert (Hsign : cond_Zopp s (Z.abs cents * Z.abs q) = cents * q).
  { unfold s. destruct (Z.ltb_spec cents 0), (Z.ltb_spec q 0); cbn; nia. }
  assert (Hprod : Z.abs cents * Z.abs q < 10 ^ 10) by (rewrite <- Z.abs_mul; exact Hcq).
  unfold to_numeric_10_2.
  destruct (float_repr_spec s m e) as (a & b & -> & Ha & Hread).
  rewrite round_half_away_opp.
  assert (Hh : round_half_away (Decimal a b) 2 = Z.abs cents * Z.abs q).
  { apply round_half_away_nearest; [exact Ha|].
    (* the chain of roundings, each within half a unit in the last place *)
    set (c := IZR (Z.abs cents)) in *. set (n := IZR (Z.abs q)) in *.
    set (vx := (IZR (Zpos mx) * powerRZ 2 ex)%R) in *.
    set (v := (IZR (Zpos m) * powerRZ 2 e)%R) in *.
    set (D := (IZR a * powerRZ 10 b)%R).
    rewrite Hvq in Hv. fold n in Hv.
    pose proof (powerRZ_2_pos ex) as Hpx. pose proof (powerRZ_2_pos e) as Hpe.
    assert (Hmx' : (4503599627370496 <= IZR (Zpos mx))%R) by (apply IZR_le; lia).
    assert (Hm' : (4503599627370496 <= IZR (Zpos m))%R) by (apply IZR_le; lia).
    assert (Hux : (4503599627370496 * powerRZ 2 ex <= vx)%R) by (unfold vx; nra).
    assert (Hu : (4503599627370496 * powerRZ 2 e <= v)%R) by (unfold v; nra).
    assert (Hc1 : (1 <= c)%R) by (apply IZR_le; lia).
    assert (Hn1 : (1 <= n)%R) by (apply IZR_le; lia).
    assert (Hcn : (c * n <= 9999999999)%R).
    { unfold c, n. rewrite <- mult_IZR. apply IZR_le. lia. }
    assert (HD : (Rabs (v - D) <= powerRZ 2 e / 2)%R).
    { destruct Hread as [Hread|Hread].
      - destruct (Z.eq_dec a 0) as [->|Ha0].
        + rewrite float_of_decimal_zero in Hread. discriminate.
        + now apply float_of_decimal_value in Hread as [_ Hread]; [|lia].
      - unfold D. rewrite Hread. fold v.
        replace (v - v)%R with 0%R by ring. rewrite Rabs_R0. lra. }
    apply Rabs_le_inv in Hvx, Hv, HD.
    set (A := (vx * n)%R) in *.
    assert (HA : (- (A / 9007199254740992) <= A - c * n / 100 <= A / 9007199254740992)%R).
    { unfold A. split; nra. }
    rewrite mult_IZR. fold c n D.
    apply Rabs_def1; lra. }
  rewrite Hh, Hsign.
  destruct (Z.ltb_spec (Z.abs (cents * q)) (10 ^ 10)); [reflexivity|lia].
Qed.

(** ** Some totals, computed *)

(** 9.99 is not a binary fraction: the float read from it is
    [5623870034678907 * 2^-49]. *)
Example price_9_99 :
  float_of_decimal 999 (-2) = S754_finite false 5623870034678907 (-49).
Proof. vm_compute. reflexivity. Qed.

(** Its product with 3 prints as 29.97 and is stored as 2997 hundredths. *)
Example total_9_99_times_3 :
  (t ← py_mul (float_of_decimal 999 (-2)) 3; mret (float_repr t, to_numeric_10_2 t))
  = Returned (Decimal 2997 (-2), Returned (Num 2997)).
Proof. vm_compute. reflexivity. Qed.

(** 0.1 times 3 is the float 0.30000000000000004; the column absorbs the
    error and holds 0.30. *)
Example total_0_1_times_3 :
  (t ← py_mul (float_of_decimal 1 (-1)) 3; mret (float_repr t, to_numeric_10_2 t))
  = Returned (Decimal 30000000000000004 (-17), Returned (Num 30)).
Proof. vm_compute. reflexivity. Qed.

(** A tie of the numeral goes away from zero: the float of 1.005 is below
    1.005, prints as 1.005 and is stored as 1.01. *)
Example total_1_005 :
  (float_repr (float_of_decimal 1005 (-3)), to_numeric_10_2 (float_of_decimal 1005 (-3)))
  = (Decimal 1005 (-3), Returned (Num 101)).
Proof. vm_compute. reflexivity. Qed.

(** A total of nine digits before the point is refused. *)
Example total_too_large :
  (t ← py_mul (float_of_decimal 999 (-2)) 100000000; to_numeric_10_2 t)
  = Raised DBAPIError.
Proof. vm_compute. reflexivity. Qed.

(** An int beyond the largest float does not convert. *)
Example int_to_float_overflow : int_to_float (2 ^ 1024) = Raised OverflowError.
Proof. vm_compute. reflexivity. Qed.


(** ** Running a handler *)

Ltac run_handler :=
  unfold mbind, mret, handler_bind, handler_ret, outcome_bind, outcome_ret,
    raise, lift in *.

Section Runs.

Variable str_to_float : string -> option spec_float.

Lemma create_order_transport_error now order w :
  catalog w (product_url (OrderCreate.product_id order)) = None ->
  create_order str_to_float now order w = (Raised TransportError, w).
Proof.
  intros H. unfold create_order, httpx_get. run_handler. now rewrite H.
Qed.

Lemma create_order_not_200 now order w r :
  catalog w (product_url (OrderCreate.product_id order)) = Some r ->
  status_code r <> 200 ->
  create_order str_to_float now order w
  = (Raised (HTTPException 400 "product not found"), w).
Proof.
  intros H Hs. unfold create_order, httpx_get. run_handler. rewrite H.
  now rewrite bool_decide_eq_true_2.
Qed.

Lemma create_order_200 now order w r :
  catalog w (product_url (OrderCreate.product_id order)) = Some r ->
  status_code r = 200 ->
  create_order str_to_float now order w
  = match json r with
    | Raised e => (Raised e, w)
    | Returned product =>
        match checked_total str_to_float product (OrderCreate.quantity order) with
        | Raised e => (Raised e, w)
        | Returned total => persist now order total w
        end
    end.
Proof.
  intros H Hs. unfold create_order, httpx_get, checked_total, persist.
  run_handler. rewrite H.
  rewrite bool_decide_eq_false_2 by (intros Hn; apply Hn, Hs).
  destruct (json r) as [product|e]; [|reflexivity].
  destruct (py_getitem product "price") as [price|e]; [|reflexivity].
  destruct (py_float str_to_float price) as [x|e]; [|reflexivity].
  destruct (py_mul x (OrderCreate.quantity order)) as [t|e]; [|reflexivity].
  destruct (py_getitem product "stock") as [stock|e]; [|reflexivity].
  destruct (py_lt stock (OrderCreate.quantity order)) as [[|]|e]; reflexivity.
Qed.

Lemma create_order_answers now order w product :
  catalog_answers w (OrderCreate.product_id order) product ->
  create_order str_to_float now order w
  = match checked_total str_to_float product (OrderCreate.quantity order) with
    | Raised e => (Raised e, w)
    | Returned total => persist now order total w
    end.
Proof.
  intros (r & H & Hs & Hj). rewrite (create_order_200 _ _ _ r H Hs).
  now rewrite Hj.
Qed.

Lemma in_int4_spec z : in_int4 z = true <-> - 2 ^ 31 <= z < 2 ^ 31.
Proof. unfold in_int4. rewrite andb_true_iff, Z.leb_le, Z.ltb_lt. tauto. Qed.

Lemma fits_columns_spec order :
  fits_columns order = true
  <-> in_int4 (OrderCreate.user_id order) = true
      /\ in_int4 (OrderCreate.product_id order) = true
      /\ in_int4 (OrderCreate.quantity order) = true.
Proof. unfold fits_columns. rewrite !andb_true_iff. tauto. Qed.

(** What a successful INSERT writes and [db_refresh] reads back. *)
Lemma persist_fresh now order total w t :
  fits_columns order = true ->
  to_numeric_10_2 total = Returned t ->
  in_int4 (orders_id_seq (db w)) = true ->
  orders (db w) !! orders_id_seq (db w) = None ->
  let key := orders_id_seq (db w) in
  let row := Order.mk key (OrderCreate.user_id order)
               (OrderCreate.product_id order) (OrderCreate.quantity order)
               t "PENDING" now in
  persist now order total w
  = (Returned row,
     World (Store (<[key := row]> (orders (db w))) (key + 1)) (catalog w)).
Proof.
  intros Hc Ht Hk Hf. unfold persist, db_add_commit, db_refresh. run_handler.
  unfold fits_columns in Hc. rewrite Hc, Ht, Hk, Hf. cbn.
  now rewrite lookup_insert_eq.
Qed.

(** [persist] returns in one case only: everything fits and the key is
    free. *)
Lemma persist_returned_inv now order total w o w' :
  persist now order total w = (Returned o, w') ->
  fits_columns order = true
  /\ in_int4 (orders_id_seq (db w)) = true
  /\ orders (db w) !! orders_id_seq (db w) = None
  /\ exists t,
       to_numeric_10_2 total = Returned t
       /\ o = Order.mk (orders_id_seq (db w)) (OrderCreate.user_id order)
                (OrderCreate.product_id order) (OrderCreate.quantity order)
                t "PENDING" now
       /\ w' = World (Store (<[orders_id_seq (db w) := o]> (orders (db w)))
                        (orders_id_seq (db w) + 1)) (catalog w).
Proof.
  unfold persist, db_add_commit, db_refresh, fits_columns. run_handler.
  destruct (in_int4 (OrderCreate.user_id order) && in_int4 (OrderCreate.product_id order)
            && in_int4 (OrderCreate.quantity order)); [|discriminate].
  destruct (to_numeric_10_2 total) as [t|e]; [|discriminate].
  destruct (in_int4 (orders_id_seq (db w))); [|discriminate].
  destruct (orders (db w) !! orders_id_seq (db w)) eqn:Hf; [discriminate|].
  cbn. rewrite lookup_insert_eq. intros [= <- <-].
  repeat split. now exists t.
Qed.

(** Whatever [persist] returns is the row stored under its key. *)
Lemma persist_returned now order total w o w' :
  persist now order total w = (Returned o, w') ->
  orders (db w') !! Order.id o = Some o /\ catalog w' = catalog w.
Proof.
  intros H. apply persist_returned_inv in H as (_ & _ & _ & t & _ & Ho & ->).
  cbn. rewrite Ho at 1. cbn. now rewrite lookup_insert_eq.
Qed.

Lemma persist_raised now order total w e w' :
  persist now order total w = (Raised e, w') ->
  orders (db w') = orders (db w) /\ catalog w' = catalog w
  /\ is_http_exception e = false.
Proof.
  unfold persist, db_add_commit, db_refresh. run_handler.
  destruct (in_int4 (OrderCreate.user_id order) && in_int4 (OrderCreate.product_id order)
            && in_int4 (OrderCreate.quantity order)); cbn;
    [|intros [= <- <-]; now repeat split].
  destruct (to_numeric_10_2 total) as [t|e0] eqn:Ht.
  - destruct (in_int4 (orders_id_seq (db w))); cbn;
      [|intros [= <- <-]; now repeat split].
    destruct (orders (db w) !! orders_id_seq (db w)) eqn:Hf.
    + intros [= <- <-]. now cbn.
    + cbn. rewrite lookup_insert_eq. discriminate.
  - intros [= <- <-]. repeat split.
    unfold to_numeric_10_2 in Ht.
    destruct total; try discriminate; try (now inversion Ht).
    destruct (_ <? _); [discriminate | now inversion Ht].
Qed.

(** The sequence only moves when it has given a key. *)
Lemma persist_refused_early now order total w :
  fits_columns order = false
  \/ (exists e, to_numeric_10_2 total = Raised e)
  \/ in_int4 (orders_id_seq (db w)) = false ->
  exists e, persist now order total w = (Raised e, w).
Proof.
  unfold persist, db_add_commit, db_refresh, fits_columns. run_handler.
  intros [Hc|[[e He]|Hk]].
  - rewrite Hc. cbn. now eexists.
  - destruct (in_int4 (OrderCreate.user_id order) && in_int4 (OrderCreate.product_id order)
              && in_int4 (OrderCreate.quantity order)); cbn; [|now eexists].
    rewrite He. now eexists.
  - destruct (in_int4 (OrderCreate.user_id order) && in_int4 (OrderCreate.product_id order)
              && in_int4 (OrderCreate.quantity order)); cbn; [|now eexists].
    destruct (to_numeric_10_2 total); [|now eexists].
    rewrite Hk. cbn. now eexists.
Qed.

Lemma get_order_eq order_id w :
  get_order order_id w
  = match orders (db w) !! order_id with
    | Some o => (Returned o, w)
    | None => (Raised (HTTPException 404 "not found"), w)
    end.
Proof.
  unfold get_order, db_query_first. run_handler.
  now destruct (orders (db w) !! order_id).
Qed.

End Runs.

(** ** The sequence stays ahead of the keys *)

Lemma empty_store_wf : store_wf empty_store.
Proof. intros k o H. cbn in H. rewrite lookup_empty in H. discriminate. Qed.

Lemma store_wf_fresh s : store_wf s -> orders s !! orders_id_seq s = None.
Proof.
  intros H. destruct (orders s !! orders_id_seq s) as [o|] eqn:E; [|reflexivity].
  apply H in E. lia.
Qed.

Lemma persist_wf now order total w :
  store_wf (db w) -> store_wf (db (snd (persist now order total w))).
Proof.
  intros H. unfold persist, db_add_commit, db_refresh. run_handler.
  destruct (in_int4 (OrderCreate.user_id order) && in_int4 (OrderCreate.product_id order)
            && in_int4 (OrderCreate.quantity order)); cbn; [|exact H].
  destruct (to_numeric_10_2 total) as [t|e]; [|exact H].
  destruct (in_int4 (orders_id_seq (db w))); cbn; [|exact H].
  rewrite (store_wf_fresh _ H). cbn. rewrite lookup_insert_eq. cbn.
  intros k o. cbn. rewrite lookup_insert. case_decide as E.
  - intros [= <-]. cbn. lia.
  - intros Hk. apply H in Hk. lia.
Qed.

Lemma create_order_wf f now order w :
  store_wf (db w) -> store_wf (db (snd (create_order f now order w))).
Proof.
  intros H.
  destruct (catalog w (product_url (OrderCreate.product_id order))) as [r|] eqn:Hc.
  - destruct (Z.eq_dec (status_code r) 200) as [Hs|Hs].
    + rewrite (create_order_200 f now order w r Hc Hs).
      destruct (json r) as [product|e]; [|exact H].
      destruct (checked_total f product _) as [t|e]; [|exact H].
      now apply persist_wf.
    + now rewrite (create_order_not_200 f now order w r Hc Hs).
  - now rewrite (create_order_transport_error f now order w Hc).
Qed.

(** ** The handlers leave the catalog alone *)

Lemma create_order_catalog f now order w :
  catalog (snd (create_order f now order w)) = catalog w.
Proof.
  destruct (catalog w (product_url (OrderCreate.product_id order))) as [r|] eqn:H.
  - destruct (Z.eq_dec (status_code r) 200) as [Hs|Hs].
    + rewrite (create_order_200 f now order w r H Hs).
      destruct (json r) as [product|e]; [|reflexivity].
      destruct (checked_total f product _) as [t|e]; [|reflexivity].
      destruct (persist now order t w) as [[o|e] w'] eqn:Hp; cbn.
      * now apply persist_returned in Hp.
      * now apply persist_raised in Hp.
    + now rewrite (create_order_not_200 f now order w r H Hs).
  - now rewrite (create_order_transport_error f now order w H).
Qed.

Lemma py_float_raises f v e :
  py_float f v = Raised e -> is_http_exception e = false.
Proof.
  destruct v; cbn; try (now intros [= <-]).
  - unfold int_to_float. destruct (binary_normalize _ _ _ _ _); now intros [= <-].
  - destruct (f s); now intros [= <-].
Qed.

Lemma py_mul_raises x q e :
  py_mul x q = Raised e -> e = OverflowError.
Proof.
  unfold py_mul, int_to_float. run_handler.
  destruct (binary_normalize _ _ _ _ _); now intros [= <-].
Qed.

(** ** healthz *)

(** C8: [healthz] answers the literal string [ok] with status 200 in every
    world, and leaves the world (database and catalog) as it found it. *)
Theorem healthz_ok (w : world) :
  healthz w = (Returned "ok", w)
  /\ response_status (fst (healthz w)) = 200
  /\ snd (healthz w) = w.
Proof. repeat split. Qed.

(** ** create_order: the refusals *)

(** C2: when the catalog answers with a status that is not a success
    status, [create_order] raises [HTTPException(400, "product not found")]
    and the world, the [orders] table included, is unchanged. *)
Theorem create_order_invalid_product f now order w r :
  catalog w (product_url (OrderCreate.product_id order)) = Some r ->
  is_success (status_code r) = false ->
  create_order f now order w
  = (Raised (HTTPException 400 "product not found"), w)
  /\ response_status (fst (create_order f now order w)) = 400
  /\ response_detail (fst (create_order f now order w)) = Some "product not found"
  /\ db (snd (create_order f now order w)) = db w.
Proof.
  intros H Hs.
  assert (Hne : status_code r <> 200).
  { intros E. rewrite E in Hs. discriminate. }
  rewrite (create_order_not_200 f now order w r H Hne). repeat split.
Qed.

Lemma create_order_invalid_product_witness :
  let w := World empty_store (catalog_with 99 (mkResponse 404 (Raised JSONDecodeError))) in
  let order := OrderCreate.mk 1 99 1 in
  create_order no_str_to_float 0 order w
  = (Raised (HTTPException 400 "product not found"), w)
  /\ response_status (fst (create_order no_str_to_float 0 order w)) = 400
  /\ response_detail (fst (create_order no_str_to_float 0 order w)) = Some "product not found"
  /\ db (snd (create_order no_str_to_float 0 order w)) = db w.
Proof.
  intros w order.
  apply (create_order_invalid_product no_str_to_float 0 order w
           (mkResponse 404 (Raised JSONDecodeError))); reflexivity.
Defined.

(** C3, as the code has it: when the catalog answers 200 with a product,
    the total of the line before is computed without an exception (the
    price converts with [float], the quantity converts to a float) and
    the reported stock is below the quantity, [create_order] raises
    [HTTPException(400, "insufficient stock")] and the world is
    unchanged. *)
Theorem create_order_insufficient_stock f now order w d price stock x y :
  catalog_answers w (OrderCreate.product_id order) (PyDict d) ->
  d !! "price" = Some price ->
  d !! "stock" = Some stock ->
  py_float f price = Returned x ->
  int_to_float (OrderCreate.quantity order) = Returned y ->
  py_lt stock (OrderCreate.quantity order) = Returned true ->
  create_order f now order w
  = (Raised (HTTPException 400 "insufficient stock"), w)
  /\ response_status (fst (create_order f now order w)) = 400
  /\ response_detail (fst (create_order f now order w)) = Some "insufficient stock"
  /\ db (snd (create_order f now order w)) = db w.
Proof.
  intros Ha Hp Hs Hx Hy Hlt.
  assert (E : create_order f now order w
              = (Raised (HTTPException 400 "insufficient stock"), w)).
  { rewrite (create_order_answers f now order w _ Ha).
    unfold checked_total, py_getitem, py_mul. run_handler.
    now rewrite Hp, Hx, Hy, Hs, Hlt. }
  rewrite E. repeat split.
Qed.

Lemma create_order_insufficient_stock_witness :
  let w := sample_world 5 in
  let order := sample_order 100 in
  create_order no_str_to_float 0 order w
  = (Raised (HTTPException 400 "insufficient stock"), w)
  /\ response_status (fst (create_order no_str_to_float 0 order w)) = 400
  /\ response_detail (fst (create_order no_str_to_float 0 order w)) = Some "insufficient stock"
  /\ db (snd (create_order no_str_to_float 0 order w)) = db w.
Proof.
  intros w order.
  eapply (create_order_insufficient_stock no_str_to_float 0 order w
            _ (json_decimal 999 (-2)) (PyInt 5)).
  - eexists. repeat split; reflexivity.
  - reflexivity.
  - reflexivity.
  - reflexivity.
  - vm_compute. reflexivity.
  - reflexivity.
Defined.

(** C3, as the spec has it, fails: with stock 5 and a quantity of [2^1024]
    the multiplication of the line before the stock test raises
    [OverflowError], and the request ends as a server error. *)
Lemma create_order_insufficient_stock_overflow :
  let w := sample_world 5 in
  let order := sample_order (2 ^ 1024) in
  catalog_answers w 42 (product_json (json_decimal 999 (-2)) (PyInt 5))
  /\ 5 < OrderCreate.quantity order
  /\ create_order no_str_to_float 0 order w = (Raised OverflowError, w)
  /\ response_status (fst (create_order no_str_to_float 0 order w)) = 500.
Proof.
  intros w order. split; [eexists; repeat split; reflexivity|].
  split; [reflexivity|]. split; vm_compute; reflexivity.
Qed.

(** C9: when the catalog answers 200 with a JSON object that lacks
    ["price"] or ["stock"], or whose ["price"] does not convert with
    [float], [create_order] ends with an exception that is not an
    [HTTPException], so the response is a 500 and not one of the two 400s,
    and the world is unchanged. *)
Theorem create_order_malformed_product f now order w d :
  catalog_answers w (OrderCreate.product_id order) (PyDict d) ->
  d !! "price" = None \/ d !! "stock" = None
  \/ (exists v e, d !! "price" = Some v /\ py_float f v = Raised e) ->
  exists e,
    create_order f now order w = (Raised e, w)
    /\ is_http_exception e = false
    /\ response_status (fst (create_order f now order w)) = 500
    /\ db (snd (create_order f now order w)) = db w.
Proof.
  intros Ha Hbad.
  assert (E : exists e, create_order f now order w = (Raised e, w)
                        /\ is_http_exception e = false).
  { rewrite (create_order_answers f now order w _ Ha).
    unfold checked_total, py_getitem. run_handler.
    destruct (d !! "price") as [price|] eqn:Hp; [|now eexists].
    destruct (py_float f price) as [x|e] eqn:Hx.
    - destruct (py_mul x (OrderCreate.quantity order)) as [t|e] eqn:Ht.
      + destruct Hbad as [Hbad|[Hbad|(v & e & Hv & He)]]; [discriminate| |congruence].
        rewrite Hbad. now eexists.
      + apply py_mul_raises in Ht as ->. now eexists.
    - apply py_float_raises in Hx. now eexists. }
  destruct E as (e & E & He). exists e. rewrite E. repeat split; [exact He|].
  cbn. now destruct e.
Qed.

Lemma create_order_malformed_product_witness :
  let w := World empty_store
             (catalog_with 42 (mkResponse 200 (Returned (PyDict (<["stock" := PyInt 10]> ∅))))) in
  exists e,
    create_order no_str_to_float 0 (sample_order 3) w = (Raised e, w)
    /\ is_http_exception e = false
    /\ response_status (fst (create_order no_str_to_float 0 (sample_order 3) w)) = 500
    /\ db (snd (create_order no_str_to_float 0 (sample_order 3) w)) = db w.
Proof.
  intros w.
  apply (create_order_malformed_product no_str_to_float 0 (sample_order 3) w
           (<["stock" := PyInt 10]> ∅)).
  - eexists. repeat split; reflexivity.
  - left. reflexivity.
Defined.

(** ** get_order *)

(** C5: [get_order] raises [HTTPException(404, "not found")] exactly when
    the table has no row with that key; otherwise it returns the row under
    that key as it is stored. The world is unchanged either way. *)
Theorem get_order_not_found_iff (order_id : Z) (w : world) :
  (get_order order_id w = (Raised (HTTPException 404 "not found"), w)
   <-> orders (db w) !! order_id = None)
  /\ (forall o, orders (db w) !! order_id = Some o <->
                get_order order_id w = (Returned o, w))
  /\ (orders (db w) !! order_id = None ->
      response_status (fst (get_order order_id w)) = 404
      /\ response_detail (fst (get_order order_id w)) = Some "not found").
Proof.
  rewrite get_order_eq.
  destruct (orders (db w) !! order_id) as [o|]; repeat split;
    try discriminate; try congruence.
Qed.

(** C6: two [get_order] calls on the same world give the same answer, the
    first leaves the world as it was, and a key that names no row gives
    404 each time. *)
Theorem get_order_idempotent (order_id : Z) (w : world) :
  snd (get_order order_id w) = w
  /\ get_order order_id (snd (get_order order_id w)) = get_order order_id w
  /\ (forall o, fst (get_order order_id w) = Returned o ->
                fst (get_order order_id (snd (get_order order_id w))) = Returned o)
  /\ (orders (db w) !! order_id = None ->
      fst (get_order order_id w) = Raised (HTTPException 404 "not found")
      /\ fst (get_order order_id (snd (get_order order_id w)))
         = Raised (HTTPException 404 "not found")).
Proof.
  assert (E : snd (get_order order_id w) = w).
  { rewrite get_order_eq. now destruct (orders (db w) !! order_id). }
  rewrite E. split; [reflexivity|]. split; [reflexivity|].
  split; [auto|]. intros Hn. rewrite get_order_eq, Hn. split; reflexivity.
Qed.

(** C4: an order returned by [create_order] is returned, field for field,
    by [get_order] on its [id] in the world [create_order] left. *)
Theorem create_order_get_order f now order w o w' :
  create_order f now order w = (Returned o, w') ->
  get_order (Order.id o) w' = (Returned o, w').
Proof.
  intros H. rewrite get_order_eq.
  destruct (catalog w (product_url (OrderCreate.product_id order))) as [r|] eqn:Hc.
  - destruct (Z.eq_dec (status_code r) 200) as [Hs|Hs].
    + rewrite (create_order_200 f now order w r Hc Hs) in H.
      destruct (json r) as [product|e]; [|discriminate].
      destruct (checked_total f product _) as [t|e]; [|discriminate].
      apply persist_returned in H as [-> _]. reflexivity.
    + rewrite (create_order_not_200 f now order w r Hc Hs) in H. discriminate.
  - rewrite (create_order_transport_error f now order w Hc) in H. discriminate.
Qed.

Lemma create_order_get_order_witness :
  exists o w',
    create_order no_str_to_float 1700000000 (sample_order 3) (sample_world 10)
    = (Returned o, w')
    /\ get_order (Order.id o) w' = (Returned o, w')
    /\ o = Order.mk 1 1 42 3 (Num 2997) "PENDING" 1700000000.
Proof.
  eexists _, _. split; [vm_compute; reflexivity|]. split.
  - apply (create_order_get_order no_str_to_float 1700000000 (sample_order 3)
             (sample_world 10)).
    vm_compute. reflexivity.
  - reflexivity.
Defined.

(** ** create_order: accepted requests *)

(** What [create_order] does once the total is computed, the stock test is
    passed, the columns accept the integers and the total, and the
    sequence gives a free key. *)
Lemma create_order_persisted f now order w d price stock x y t :
  catalog_answers w (OrderCreate.product_id order) (PyDict d) ->
  d !! "price" = Some price ->
  d !! "stock" = Some stock ->
  py_float f price = Returned x ->
  int_to_float (OrderCreate.quantity order) = Returned y ->
  py_lt stock (OrderCreate.quantity order) = Returned false ->
  fits_columns order = true ->
  to_numeric_10_2 (float_mul x y) = Returned t ->
  in_int4 (orders_id_seq (db w)) = true ->
  orders (db w) !! orders_id_seq (db w) = None ->
  let key := orders_id_seq (db w) in
  let row := Order.mk key (OrderCreate.user_id order)
               (OrderCreate.product_id order) (OrderCreate.quantity order)
               t "PENDING" now in
  create_order f now order w
  = (Returned row,
     World (Store (<[key := row]> (orders (db w))) (key + 1)) (catalog w)).
Proof.
  intros Ha Hp Hs Hx Hy Hlt Hc Ht Hk Hf.
  rewrite (create_order_answers f now order w _ Ha).
  unfold checked_total, py_getitem, py_mul. run_handler.
  rewrite Hp, Hx, Hy, Hs, Hlt.
  now apply persist_fresh.
Qed.

(** A stock below the quantity, once the total is computed. *)
Lemma create_order_refused f now order w d price stock x y :
  catalog_answers w (OrderCreate.product_id order) (PyDict d) ->
  d !! "price" = Some price ->
  d !! "stock" = Some stock ->
  py_float f price = Returned x ->
  int_to_float (OrderCreate.quantity order) = Returned y ->
  py_lt stock (OrderCreate.quantity order) = Returned true ->
  create_order f now order w
  = (Raised (HTTPException 400 "insufficient stock"), w).
Proof.
  intros Ha Hp Hs Hx Hy Hlt.
  rewrite (create_order_answers f now order w _ Ha).
  unfold checked_total, py_getitem, py_mul. run_handler.
  now rewrite Hp, Hx, Hy, Hs, Hlt.
Qed.

(** C10: the stock test is a strict comparison.  A stock equal to the
    quantity passes it: with a price that converts, integers and a total
    the columns accept and a free key from the sequence, the order is
    written and returned.  Any integer stock below the quantity, with the
    same price, is refused.  No run of [create_order] changes what the
    catalog reports. *)
Theorem create_order_stock_equal f now order w d price x y t :
  catalog_answers w (OrderCreate.product_id order) (PyDict d) ->
  d !! "price" = Some price ->
  d !! "stock" = Some (PyInt (OrderCreate.quantity order)) ->
  py_float f price = Returned x ->
  int_to_float (OrderCreate.quantity order) = Returned y ->
  fits_columns order = true ->
  to_numeric_10_2 (float_mul x y) = Returned t ->
  in_int4 (orders_id_seq (db w)) = true ->
  orders (db w) !! orders_id_seq (db w) = None ->
  py_lt (PyInt (OrderCreate.quantity order)) (OrderCreate.quantity order)
  = Returned false
  /\ (exists o w',
        create_order f now order w = (Returned o, w')
        /\ orders (db w') !! Order.id o = Some o
        /\ Order.quantity o = OrderCreate.quantity order
        /\ Order.status o = "PENDING"
        /\ catalog w' = catalog w)
  /\ (forall w1 d1 stock,
        catalog_answers w1 (OrderCreate.product_id order) (PyDict d1) ->
        d1 !! "price" = Some price ->
        d1 !! "stock" = Some (PyInt stock) ->
        stock < OrderCreate.quantity order ->
        create_order f now order w1
        = (Raised (HTTPException 400 "insufficient stock"), w1))
  /\ (forall now' order' w0,
        catalog (snd (create_order f now' order' w0)) = catalog w0).
Proof.
  intros Ha Hp Hs Hx Hy Hc Ht Hk Hf.
  assert (Hlt : py_lt (PyInt (OrderCreate.quantity order)) (OrderCreate.quantity order)
                = Returned false).
  { cbn. now rewrite Z.ltb_irrefl. }
  split; [exact Hlt|]. split; [|split].
  - eexists _, _. split.
    + apply (create_order_persisted f now order w d price
               (PyInt (OrderCreate.quantity order)) x y t); assumption.
    + cbn. rewrite lookup_insert_eq. repeat split.
  - intros w1 d1 stock Ha1 Hp1 Hs1 Hlow.
    apply (create_order_refused f now order w1 d1 price (PyInt stock) x y);
      try assumption.
    cbn. f_equal. now apply Z.ltb_lt.
  - intros. apply create_order_catalog.
Qed.

Lemma create_order_stock_equal_witness :
  py_lt (PyInt 3) 3 = Returned false
  /\ (exists o w',
        create_order no_str_to_float 0 (sample_order 3) (sample_world 3) = (Returned o, w')
        /\ orders (db w') !! Order.id o = Some o
        /\ Order.quantity o = 3
        /\ Order.status o = "PENDING"
        /\ catalog w' = catalog (sample_world 3))
  /\ (forall w1 d1 stock,
        catalog_answers w1 42 (PyDict d1) ->
        d1 !! "price" = Some (json_decimal 999 (-2)) ->
        d1 !! "stock" = Some (PyInt stock) ->
        stock < 3 ->
        create_order no_str_to_float 0 (sample_order 3) w1
        = (Raised (HTTPException 400 "insufficient stock"), w1))
  /\ (forall now' order' w0,
        catalog (snd (create_order no_str_to_float now' order' w0)) = catalog w0).
Proof.
  eapply (create_order_stock_equal no_str_to_float 0 (sample_order 3) (sample_world 3)
            _ (json_decimal 999 (-2))).
  - eexists. repeat split; reflexivity.
  - reflexivity.
  - reflexivity.
  - reflexivity.
  - vm_compute. reflexivity.
  - reflexivity.
  - vm_compute. reflexivity.
  - reflexivity.
  - reflexivity.
Defined.

(** C7, as the code has it: a quantity that is zero or negative is not
    refused.  When the price is a finite number that is not negative, the
    stock test passes and the row can be written (the quantity converts to
    a float, the columns accept the integers and the total, the sequence
    gives a free key), the order is written with that quantity and its
    total is not positive. *)
Theorem create_order_non_positive_quantity f now order w d price stock x y t :
  catalog_answers w (OrderCreate.product_id order) (PyDict d) ->
  d !! "price" = Some price ->
  d !! "stock" = Some stock ->
  OrderCreate.quantity order <= 0 ->
  py_float f price = Returned x ->
  float_nonneg x = true ->
  int_to_float (OrderCreate.quantity order) = Returned y ->
  py_lt stock (OrderCreate.quantity order) = Returned false ->
  fits_columns order = true ->
  to_numeric_10_2 (float_mul x y) = Returned t ->
  in_int4 (orders_id_seq (db w)) = true ->
  orders (db w) !! orders_id_seq (db w) = None ->
  exists o w' h,
    create_order f now order w = (Returned o, w')
    /\ orders (db w') !! Order.id o = Some o
    /\ Order.quantity o = OrderCreate.quantity order
    /\ Order.total o = Num h /\ h <= 0.
Proof.
  intros Ha Hp Hs Hq Hx Hnn Hy Hlt Hc Ht Hk Hf.
  assert (Hh : exists h, t = Num h /\ h <= 0).
  { pose proof (binary_normalize_sign (OrderCreate.quantity order)) as Hsy.
    destruct (int_to_float_returned _ _ Hy) as [Hy' Hfin].
    destruct (Z.eq_dec (OrderCreate.quantity order) 0) as [E|E].
    - rewrite E in Hy. cbn in Hy. injection Hy as <-.
      destruct x as [sx|sx| |sx mx ex]; try discriminate; cbn in Ht;
        injection Ht as <-; exists 0; split; (reflexivity || lia).
    - assert (Hlt0 : (OrderCreate.quantity order <? 0) = true) by (apply Z.ltb_lt; lia).
      rewrite Hlt0 in Hsy.
      rewrite <- Hy' in Hsy.
      destruct x as [sx|sx| |sx mx ex]; try discriminate.
      + destruct y as [sy|sy| |sy my ey]; cbn in Hsy; try tauto;
          [| now destruct (Hfin sy) |]; cbn in Ht;
          injection Ht as <-; exists 0; split; (reflexivity || lia).
      + destruct sx; [discriminate|].
        destruct (float_mul_sign false true (S754_finite false mx ex) y eq_refl Hsy)
          as [Hnan|Hsg].
        * destruct y as [sy|sy| |sy my ey]; cbn in Hsy; try tauto;
            [discriminate | now destruct (Hfin sy) |].
          exfalso. unfold float_mul, SFmul in Hnan.
          pose proof (binary_round_aux_sign (xorb false sy) (Z.pos (mx * my))
                        (ex + ey) loc_Exact ltac:(lia)) as Hb.
          now rewrite Hnan in Hb.
        * eapply to_numeric_10_2_negative; eauto. }
  destruct Hh as (h & -> & Hh).
  eexists _, _, h. split.
  - apply (create_order_persisted f now order w d price stock x y (Num h)); eauto.
  - cbn. rewrite lookup_insert_eq. repeat split. exact Hh.
Qed.

Lemma create_order_non_positive_quantity_witness :
  exists o w' h,
    create_order no_str_to_float 0 (sample_order (-2)) (sample_world 0) = (Returned o, w')
    /\ orders (db w') !! Order.id o = Some o
    /\ Order.quantity o = -2
    /\ Order.total o = Num h /\ h <= 0.
Proof.
  eapply (create_order_non_positive_quantity no_str_to_float 0 (sample_order (-2))
            (sample_world 0) _ (json_decimal 999 (-2)) (PyInt 0)).
  - eexists. repeat split; reflexivity.
  - reflexivity.
  - reflexivity.
  - vm_compute. discriminate.
  - reflexivity.
  - vm_compute. reflexivity.
  - vm_compute. reflexivity.
  - reflexivity.
  - reflexivity.
  - vm_compute. reflexivity.
  - reflexivity.
  - reflexivity.
Defined.

(** C7, as the spec has it, fails on a negative price: price -1.00,
    quantity -1 and stock 0 give an order of total +1.00. *)
Lemma create_order_negative_price_positive_total :
  let w := World empty_store
             (catalog_with 42 (mkResponse 200
                (Returned (product_json (json_decimal (-100) (-2)) (PyInt 0))))) in
  let order := sample_order (-1) in
  OrderCreate.quantity order <= 0
  /\ py_lt (PyInt 0) (OrderCreate.quantity order) = Returned false
  /\ fst (create_order no_str_to_float 0 order w)
     = Returned (Order.mk 1 1 42 (-1) (Num 100) "PENDING" 0)
  /\ ~ (100 <= 0).
Proof.
  intros w order. split; [vm_compute; discriminate|]. split; [reflexivity|].
  split; [vm_compute; reflexivity|lia].
Qed.

(** ** create_order: the total *)

(** C1, as the code has it: the total is computed in binary floating
    point and stored with two decimals.  When the catalog answers 200 with
    a price of at most two decimals, [cents / 100] below [10^8] in
    magnitude, a stock not below the quantity, a user, a product and a
    quantity that fit their [Integer] columns, a product
    [price * quantity] that fits the [Numeric(10,2)] column and a free
    key from the sequence, [create_order] returns the order it wrote, with
    status [PENDING] and total exactly [cents * quantity] hundredths. *)
Theorem create_order_total_exact f now order w d price cents stock :
  catalog_answers w (OrderCreate.product_id order) (PyDict d) ->
  d !! "price" = Some price ->
  json_price cents price ->
  d !! "stock" = Some (PyInt stock) ->
  OrderCreate.quantity order <= stock ->
  Z.abs cents < 10 ^ 10 ->
  fits_columns order = true ->
  Z.abs (cents * OrderCreate.quantity order) < 10 ^ 10 ->
  in_int4 (orders_id_seq (db w)) = true ->
  orders (db w) !! orders_id_seq (db w) = None ->
  exists o w',
    create_order f now order w = (Returned o, w')
    /\ Order.total o = Num (cents * OrderCreate.quantity order)
    /\ Order.status o = "PENDING"
    /\ Order.user_id o = OrderCreate.user_id order
    /\ Order.product_id o = OrderCreate.product_id order
    /\ Order.quantity o = OrderCreate.quantity order
    /\ Order.created_at o = now
    /\ orders (db w') !! Order.id o = Some o.
Proof.
  intros Ha Hp Hprice Hs Hle Hc Hfit Hcq Hk Hf.
  assert (Hq : Z.abs (OrderCreate.quantity order) < 2 ^ 53).
  { apply fits_columns_spec in Hfit as (_ & _ & Hq).
    apply in_int4_spec in Hq. lia. }
  destruct (py_float_json_price f cents price Hprice Hc) as (x & Hx & Hpx).
  destruct (total_of_price x cents _ Hpx Hq Hcq) as (y & Hy & Ht).
  assert (Hlt : py_lt (PyInt stock) (OrderCreate.quantity order) = Returned false).
  { cbn. f_equal. apply Z.ltb_ge. exact Hle. }
  eexists _, _. split.
  - apply (create_order_persisted f now order w d price (PyInt stock) x y
             (Num (cents * OrderCreate.quantity order))); assumption.
  - cbn. rewrite lookup_insert_eq. repeat split.
Qed.

(** The scenario of the spec: 9.99 times 3 is stored as 29.97. *)
Lemma create_order_total_exact_witness :
  exists o w',
    create_order no_str_to_float 1700000000 (sample_order 3) (sample_world 10)
    = (Returned o, w')
    /\ Order.total o = Num (999 * 3)
    /\ Order.status o = "PENDING"
    /\ Order.user_id o = 1
    /\ Order.product_id o = 42
    /\ Order.quantity o = 3
    /\ Order.created_at o = 1700000000
    /\ orders (db w') !! Order.id o = Some o.
Proof.
  eapply (create_order_total_exact no_str_to_float 1700000000 (sample_order 3)
            (sample_world 10) _ (json_decimal 999 (-2)) 999 10).
  - eexists. repeat split; reflexivity.
  - reflexivity.
  - left. reflexivity.
  - reflexivity.
  - vm_compute. discriminate.
  - reflexivity.
  - reflexivity.
  - reflexivity.
  - reflexivity.
  - reflexivity.
Defined.

(** C1, as the spec has it, fails on a price of three decimals: 0.001
    times 9 is the float 0.009000000000000001, stored as 0.01, and neither
    is 0.009. *)
Lemma create_order_total_three_decimals :
  let w := World empty_store
             (catalog_with 42 (mkResponse 200
                (Returned (product_json (json_decimal 1 (-3)) (PyInt 10))))) in
  catalog_answers w 42 (product_json (json_decimal 1 (-3)) (PyInt 10))
  /\ 9 <= 10
  /\ fst (create_order no_str_to_float 0 (sample_order 9) w)
     = Returned (Order.mk 1 1 42 9 (Num 1) "PENDING" 0)
  /\ (y ← int_to_float 9; mret (float_repr (float_mul (float_of_decimal 1 (-3)) y)))
     = Returned (Decimal 9000000000000001 (-18))
  /\ 1 * 10 ^ 3 <> 1 * 9 * 10 ^ 2.
Proof.
  intros w. split; [eexists; repeat split; reflexivity|].
  split; [lia|]. split; [vm_compute; reflexivity|].
  split; [vm_compute; reflexivity|lia].
Qed.

(** * Further properties of the handlers *)

(** ** Every way [create_order] can end *)

Lemma checked_total_raised f product q e :
  checked_total f product q = Raised e ->
  is_http_exception e = false \/ e = HTTPException 400 "insufficient stock".
Proof.
  unfold checked_total. run_handler.
  destruct (py_getitem product "price") as [price|e0] eqn:Hp.
  2:{ intros [= <-]. left. unfold py_getitem in Hp.
      destruct product; try (now inversion Hp).
      destruct (d !! "price"); now inversion Hp. }
  destruct (py_float f price) as [x|e0] eqn:Hx.
  2:{ intros [= <-]. left. eapply py_float_raises; eauto. }
  destruct (py_mul x q) as [t|e0] eqn:Ht.
  2:{ intros [= <-]. left. now apply py_mul_raises in Ht as ->. }
  destruct (py_getitem product "stock") as [stock|e0] eqn:Hs.
  2:{ intros [= <-]. left. unfold py_getitem in Hs.
      destruct product; try (now inversion Hs).
      destruct (d !! "stock"); now inversion Hs. }
  destruct (py_lt stock q) as [[|]|e0] eqn:Hlt.
  - intros [= <-]. now right.
  - discriminate.
  - intros [= <-]. left. destruct stock; cbn in Hlt; now inversion Hlt.
Qed.

(** A returned order is the row just written under the next key of the
    sequence, which was free. *)
Lemma persist_returned_row now order total w o w' :
  persist now order total w = (Returned o, w') ->
  exists t,
    to_numeric_10_2 total = Returned t
    /\ orders (db w) !! orders_id_seq (db w) = None
    /\ o = Order.mk (orders_id_seq (db w)) (OrderCreate.user_id order)
             (OrderCreate.product_id order) (OrderCreate.quantity order)
             t "PENDING" now
    /\ w' = World (Store (<[orders_id_seq (db w) := o]> (orders (db w)))
                     (orders_id_seq (db w) + 1)) (catalog w).
Proof.
  intros H. apply persist_returned_inv in H as (_ & _ & Hf & t & Ht & Ho & Hw).
  exists t. now repeat split.
Qed.

Lemma to_numeric_10_2_range x t :
  to_numeric_10_2 x = Returned t ->
  t = NumNaN \/ exists h, t = Num h /\ Z.abs h < 10 ^ 10.
Proof.
  destruct x as [s|s| |s m e]; cbn -[float_repr Z.pow].
  - intros [= <-]. right. exists 0. split; [reflexivity|]. cbn. lia.
  - discriminate.
  - intros [= <-]. now left.
  - destruct (Z.ltb_spec (Z.abs (round_half_away (float_repr (S754_finite s m e)) 2))
                (10 ^ 10)); [|discriminate].
    intros [= <-]. right. eexists. split; [reflexivity|assumption].
Qed.

Lemma create_order_returned f now order w o w' :
  create_order f now order w = (Returned o, w') ->
  exists t,
    (t = NumNaN \/ exists h, t = Num h /\ Z.abs h < 10 ^ 10)
    /\ orders (db w) !! orders_id_seq (db w) = None
    /\ o = Order.mk (orders_id_seq (db w)) (OrderCreate.user_id order)
             (OrderCreate.product_id order) (OrderCreate.quantity order)
             t "PENDING" now
    /\ w' = World (Store (<[orders_id_seq (db w) := o]> (orders (db w)))
                     (orders_id_seq (db w) + 1)) (catalog w).
Proof.
  intros H.
  destruct (catalog w (product_url (OrderCreate.product_id order))) as [r|] eqn:Hc.
  - destruct (Z.eq_dec (status_code r) 200) as [Hs|Hs].
    + rewrite (create_order_200 f now order w r Hc Hs) in H.
      destruct (json r) as [product|e]; [|discriminate].
      destruct (checked_total f product _) as [total|e]; [|discriminate].
      apply persist_returned_row in H as (t & Ht & Hf & Ho & Hw).
      exists t. split; [eapply to_numeric_10_2_range; eauto|]. now repeat split.
    + rewrite (create_order_not_200 f now order w r Hc Hs) in H. discriminate.
  - rewrite (create_order_transport_error f now order w Hc) in H. discriminate.
Qed.

Lemma create_order_raised f now order w e w' :
  create_order f now order w = (Raised e, w') ->
  orders (db w') = orders (db w) /\ catalog w' = catalog w.
Proof.
  intros H.
  destruct (catalog w (product_url (OrderCreate.product_id order))) as [r|] eqn:Hc.
  - destruct (Z.eq_dec (status_code r) 200) as [Hs|Hs].
    + rewrite (create_order_200 f now order w r Hc Hs) in H.
      destruct (json r) as [product|e0]; [|now injection H as <- <-].
      destruct (checked_total f product _) as [total|e0]; [|now injection H as <- <-].
      apply persist_raised in H. tauto.
    + rewrite (create_order_not_200 f now order w r Hc Hs) in H.
      now injection H as <- <-.
  - rewrite (create_order_transport_error f now order w Hc) in H.
    now injection H as <- <-.
Qed.

(** Rows already in the table stay as they are, whatever the outcome. *)
Lemma create_order_keeps f now order w k o :
  orders (db w) !! k = Some o ->
  orders (db (snd (create_order f now order w))) !! k = Some o.
Proof.
  intros Hk.
  destruct (create_order f now order w) as [[o'|e] w'] eqn:H; cbn.
  - apply create_order_returned in H as (t & _ & Hf & _ & ->). cbn.
    rewrite lookup_insert_ne; [exact Hk|]. intros <-. congruence.
  - apply create_order_raised in H as [-> _]. exact Hk.
Qed.

(** Under [store_wf] the sequence gives a free key, so that a refused
    INSERT is refused before the sequence is asked, or by a sequence that
    has run out: the store is as it was. *)
Lemma persist_raised_wf now order total w e w' :
  store_wf (db w) ->
  persist now order total w = (Raised e, w') -> w' = w.
Proof.
  intros Hwf. unfold persist, db_add_commit, db_refresh. run_handler.
  destruct (in_int4 (OrderCreate.user_id order) && in_int4 (OrderCreate.product_id order)
            && in_int4 (OrderCreate.quantity order)); cbn; [|congruence].
  destruct (to_numeric_10_2 total) as [t|e0]; [|congruence].
  destruct (in_int4 (orders_id_seq (db w))); cbn; [|congruence].
  rewrite (store_wf_fresh _ Hwf). cbn. rewrite lookup_insert_eq. discriminate.
Qed.

Lemma create_order_raised_wf f now order w e w' :
  store_wf (db w) ->
  create_order f now order w = (Raised e, w') -> w' = w.
Proof.
  intros Hwf H.
  destruct (catalog w (product_url (OrderCreate.product_id order))) as [r|] eqn:Hc.
  - destruct (Z.eq_dec (status_code r) 200) as [Hs|Hs].
    + rewrite (create_order_200 f now order w r Hc Hs) in H.
      destruct (json r) as [product|e0]; [|congruence].
      destruct (checked_total f product _) as [total|e0]; [|congruence].
      eapply persist_raised_wf; eauto.
    + rewrite (create_order_not_200 f now order w r Hc Hs) in H. congruence.
  - rewrite (create_order_transport_error f now order w Hc) in H. congruence.
Qed.

(** ** What a returned order holds *)

(** X1: an order returned by [create_order] carries the key the sequence
    had, the three fields of the request, the status [PENDING], the time
    of the write, and a total the column can hold. *)
Theorem create_order_order_fields f now order w o w' :
  create_order f now order w = (Returned o, w') ->
  Order.id o = orders_id_seq (db w)
  /\ Order.user_id o = OrderCreate.user_id order
  /\ Order.product_id o = OrderCreate.product_id order
  /\ Order.quantity o = OrderCreate.quantity order
  /\ Order.status o = "PENDING"
  /\ Order.created_at o = now
  /\ (Order.total o = NumNaN
      \/ exists h, Order.total o = Num h /\ Z.abs h < 10 ^ 10).
Proof.
  intros H. apply create_order_returned in H as (t & Ht & _ & -> & _).
  repeat split. exact Ht.
Qed.

Lemma create_order_order_fields_witness :
  exists o w',
    create_order no_str_to_float 7 (sample_order 3) (sample_world 10) = (Returned o, w')
    /\ Order.id o = 1 /\ Order.user_id o = 1 /\ Order.product_id o = 42
    /\ Order.quantity o = 3 /\ Order.status o = "PENDING" /\ Order.created_at o = 7
    /\ (Order.total o = NumNaN \/ exists h, Order.total o = Num h /\ Z.abs h < 10 ^ 10).
Proof.
  eexists _, _. split; [vm_compute; reflexivity|].
  eapply (create_order_order_fields no_str_to_float 7 (sample_order 3) (sample_world 10)).
  vm_compute. reflexivity.
Defined.

(** ** What [create_order] does to the table *)

(** X2: a [create_order] that returns has added exactly one row, under a
    key that was free, and has moved the sequence past it. *)
Theorem create_order_adds_one_row f now order w o w' :
  create_order f now order w = (Returned o, w') ->
  orders (db w) !! Order.id o = None
  /\ orders (db w') = <[Order.id o := o]> (orders (db w))
  /\ size (orders (db w')) = S (size (orders (db w)))
  /\ orders_id_seq (db w') = Order.id o + 1.
Proof.
  intros H. apply create_order_returned in H as (t & _ & Hf & -> & ->). cbn.
  repeat split; try assumption.
  now apply map_size_insert_None.
Qed.

Lemma create_order_adds_one_row_witness :
  exists o w',
    create_order no_str_to_float 7 (sample_order 3) (sample_world 10) = (Returned o, w')
    /\ orders (db (sample_world 10)) !! Order.id o = None
    /\ orders (db w') = <[Order.id o := o]> (orders (db (sample_world 10)))
    /\ size (orders (db w')) = S (size (orders (db (sample_world 10))))
    /\ orders_id_seq (db w') = Order.id o + 1.
Proof.
  eexists _, _. split; [vm_compute; reflexivity|].
  eapply (create_order_adds_one_row no_str_to_float 7 (sample_order 3) (sample_world 10)).
  vm_compute. reflexivity.
Defined.

(** X3: a [create_order] that raises, for whatever reason (the catalog,
    the product, the stock, an integer or a total the columns refuse, the
    key), has written no row: the table is as it was and [get_order]
    answers as before for every key. *)
Theorem create_order_failure_writes_nothing f now order w e w' :
  create_order f now order w = (Raised e, w') ->
  orders (db w') = orders (db w)
  /\ forall k, fst (get_order k w') = fst (get_order k w).
Proof.
  intros H. apply create_order_raised in H as [Ho _]. split; [exact Ho|].
  intros k. rewrite !get_order_eq, Ho. now destruct (orders (db w) !! k).
Qed.

(** The witness is a user the [Integer] column refuses: [2^31]. *)
Lemma create_order_failure_writes_nothing_witness :
  let order := OrderCreate.mk (2 ^ 31) 42 3 in
  exists e w',
    create_order no_str_to_float 7 order (sample_world 10) = (Raised e, w')
    /\ e = DBAPIError
    /\ orders (db w') = orders (db (sample_world 10))
    /\ forall k, fst (get_order k w') = fst (get_order k (sample_world 10)).
Proof.
  intros order.
  eexists _, _. split; [vm_compute; reflexivity|]. split; [reflexivity|].
  eapply (create_order_failure_writes_nothing no_str_to_float 7
           order (sample_world 10) DBAPIError).
  vm_compute. reflexivity.
Defined.

(** X4: [create_order] changes the answer of [get_order] for no key but
    the one it assigns: an order that could be read can still be read,
    unchanged, and any other key than the next of the sequence answers as
    before. *)
Theorem create_order_keeps_orders f now order w k :
  (exists o, get_order k w = (Returned o, w)) \/ k <> orders_id_seq (db w) ->
  fst (get_order k (snd (create_order f now order w))) = fst (get_order k w).
Proof.
  intros Hk. rewrite !get_order_eq.
  destruct (orders (db w) !! k) as [o|] eqn:E.
  - now rewrite (create_order_keeps f now order w k o E).
  - destruct Hk as [[o Ho]|Hne].
    { rewrite get_order_eq, E in Ho. discriminate. }
    destruct (create_order f now order w) as [[o'|e] w'] eqn:H; cbn.
    + apply create_order_returned in H as (t & _ & _ & _ & ->). cbn.
      rewrite lookup_insert_ne by congruence. now rewrite E.
    + apply create_order_raised in H as [-> _]. now rewrite E.
Qed.

Lemma create_order_keeps_orders_witness :
  let w1 := snd (create_order no_str_to_float 7 (sample_order 3) (sample_world 10)) in
  (exists o, get_order 1 w1 = (Returned o, w1))
  /\ fst (get_order 1 (snd (create_order no_str_to_float 8 (sample_order 2) w1)))
     = fst (get_order 1 w1).
Proof.
  intros w1.
  assert (H : exists o, get_order 1 w1 = (Returned o, w1))
    by (eexists; vm_compute; reflexivity).
  split; [exact H|].
  apply (create_order_keeps_orders no_str_to_float 8 (sample_order 2) w1 1).
  left. exact H.
Defined.

(** X5: two [create_order] calls in a row that both return give
    consecutive keys, and both orders can be read afterwards. *)
Theorem create_order_twice f now1 order1 now2 order2 w o1 w1 o2 w2 :
  create_order f now1 order1 w = (Returned o1, w1) ->
  create_order f now2 order2 w1 = (Returned o2, w2) ->
  Order.id o2 = Order.id o1 + 1
  /\ get_order (Order.id o1) w2 = (Returned o1, w2)
  /\ get_order (Order.id o2) w2 = (Returned o2, w2).
Proof.
  intros H1 H2.
  apply create_order_returned in H1 as (t1 & _ & Hf1 & -> & ->).
  apply create_order_returned in H2 as (t2 & _ & Hf2 & -> & ->).
  cbn in *. split; [reflexivity|].
  rewrite !get_order_eq. cbn.
  rewrite lookup_insert_ne by lia. rewrite !lookup_insert_eq. split; reflexivity.
Qed.

Lemma create_order_twice_witness :
  let r1 := create_order no_str_to_float 7 (sample_order 3) (sample_world 10) in
  let r2 := create_order no_str_to_float 8 (sample_order 2) (snd r1) in
  let o1 := Order.mk 1 1 42 3 (Num 2997) "PENDING" 7 in
  let o2 := Order.mk 2 1 42 2 (Num 1998) "PENDING" 8 in
  r1 = (Returned o1, snd r1)
  /\ r2 = (Returned o2, snd r2)
  /\ Order.id o2 = Order.id o1 + 1
  /\ get_order (Order.id o1) (snd r2) = (Returned o1, snd r2)
  /\ get_order (Order.id o2) (snd r2) = (Returned o2, snd r2).
Proof.
  intros r1 r2 o1 o2.
  assert (H1 : r1 = (Returned o1, snd r1)) by (vm_compute; reflexivity).
  assert (H2 : r2 = (Returned o2, snd r2)) by (vm_compute; reflexivity).
  split; [exact H1|]. split; [exact H2|].
  exact (create_order_twice no_str_to_float 7 (sample_order 3) 8 (sample_order 2)
           (sample_world 10) o1 (snd r1) o2 (snd r2) H1 H2).
Defined.

(** X6: when every row sits under its own [id] and the sequence is ahead
    of all keys, [create_order] leaves the table so, and the next key is
    free again: from the empty table on, no INSERT meets a key in use.
    The sequence moves by one when a row is written; a request that is
    refused leaves the rows and the sequence as they were. *)
Theorem create_order_keeps_store_wf f now order w :
  store_wf (db w) ->
  store_wf (db (snd (create_order f now order w)))
  /\ orders (db (snd (create_order f now order w)))
       !! orders_id_seq (db (snd (create_order f now order w))) = None
  /\ (forall o, fst (create_order f now order w) = Returned o ->
                orders_id_seq (db (snd (create_order f now order w)))
                = orders_id_seq (db w) + 1)
  /\ (forall e, fst (create_order f now order w) = Raised e ->
                snd (create_order f now order w) = w).
Proof.
  intros H. pose proof (create_order_wf f now order w H) as H'.
  split; [exact H'|]. split; [now apply store_wf_fresh|].
  destruct (create_order f now order w) as [r w'] eqn:E. cbn. split.
  - intros o ->. apply create_order_returned in E as (t & _ & _ & _ & ->).
    reflexivity.
  - intros e ->. now apply (create_order_raised_wf f now order w e w').
Qed.

(** The witness is a total the column refuses, 9.99 times 100000000: the
    sequence stays at 1. *)
Lemma create_order_keeps_store_wf_witness :
  let w := sample_world 100000000 in
  let r := create_order no_str_to_float 7 (sample_order 100000000) w in
  store_wf (db w)
  /\ fst r = Raised DBAPIError
  /\ orders_id_seq (db (snd r)) = 1
  /\ store_wf (db (snd r))
  /\ orders (db (snd r)) !! orders_id_seq (db (snd r)) = None
  /\ (forall o, fst r = Returned o ->
                orders_id_seq (db (snd r)) = orders_id_seq (db w) + 1)
  /\ (forall e, fst r = Raised e -> snd r = w).
Proof.
  intros w r.
  split; [exact empty_store_wf|].
  split; [vm_compute; reflexivity|].
  split; [vm_compute; reflexivity|].
  apply (create_order_keeps_store_wf no_str_to_float 7 (sample_order 100000000) w).
  exact empty_store_wf.
Defined.

(** ** The refusals, exactly *)

(** X7: with a body that decodes, [create_order] answers "product not
    found" exactly when the status of the catalog's answer is not 200; a
    201 or a 204 with a sound product is refused like a 404. *)
Theorem create_order_not_found_iff f now order w r product :
  catalog w (product_url (OrderCreate.product_id order)) = Some r ->
  json r = Returned product ->
  create_order f now order w = (Raised (HTTPException 400 "product not found"), w)
  <-> status_code r <> 200.
Proof.
  intros Hc Hj. split.
  - intros H Hs. rewrite (create_order_200 f now order w r Hc Hs), Hj in H.
    destruct (checked_total f product _) as [t|e] eqn:Ht.
    + destruct (persist now order t w) as [[o|e] w'] eqn:Hp; [discriminate|].
      apply persist_raised in Hp as (_ & _ & He). injection H as -> _. discriminate.
    + injection H as ->. apply checked_total_raised in Ht as [Ht|Ht]; discriminate.
  - intros Hs. exact (create_order_not_200 f now order w r Hc Hs).
Qed.

Lemma create_order_not_found_iff_witness :
  let r := mkResponse 204 (Returned (product_json (json_decimal 999 (-2)) (PyInt 10))) in
  let w := World empty_store (catalog_with 42 r) in
  (create_order no_str_to_float 0 (sample_order 3) w
   = (Raised (HTTPException 400 "product not found"), w)
   <-> status_code r <> 200)
  /\ create_order no_str_to_float 0 (sample_order 3) w
     = (Raised (HTTPException 400 "product not found"), w).
Proof.
  intros r w. split.
  - apply (create_order_not_found_iff no_str_to_float 0 (sample_order 3) w r
             (product_json (json_decimal 999 (-2)) (PyInt 10))); reflexivity.
  - vm_compute. reflexivity.
Defined.

(** X8: with a price that converts, a quantity that converts and an
    integer stock, [create_order] answers "insufficient stock" exactly when
    the stock is below the quantity. *)
Theorem create_order_insufficient_iff f now order w d price stock x y :
  catalog_answers w (OrderCreate.product_id order) (PyDict d) ->
  d !! "price" = Some price ->
  d !! "stock" = Some (PyInt stock) ->
  py_float f price = Returned x ->
  int_to_float (OrderCreate.quantity order) = Returned y ->
  create_order f now order w = (Raised (HTTPException 400 "insufficient stock"), w)
  <-> stock < OrderCreate.quantity order.
Proof.
  intros Ha Hp Hs Hx Hy.
  rewrite (create_order_answers f now order w _ Ha).
  unfold checked_total, py_getitem, py_mul, py_lt. run_handler.
  rewrite Hp, Hx, Hy, Hs.
  destruct (Z.ltb_spec stock (OrderCreate.quantity order)) as [Hlt|Hge].
  - split; [intros _; exact Hlt|reflexivity].
  - split; [|lia]. intros H. exfalso.
    destruct (persist now order (float_mul x y) w) as [[o|e] w'] eqn:Hp';
      [discriminate|].
    apply persist_raised in Hp' as (_ & _ & He). injection H as -> _. discriminate.
Qed.

Lemma create_order_insufficient_iff_witness :
  create_order no_str_to_float 0 (sample_order 100) (sample_world 5)
  = (Raised (HTTPException 400 "insufficient stock"), sample_world 5)
  <-> 5 < 100.
Proof.
  eapply (create_order_insufficient_iff no_str_to_float 0 (sample_order 100)
            (sample_world 5) _ (json_decimal 999 (-2)) 5).
  - eexists. repeat split; reflexivity.
  - reflexivity.
  - reflexivity.
  - reflexivity.
  - vm_compute. reflexivity.
Defined.

(** X9: a 200 whose body does not decode to a JSON object ends the request
    with an exception that is not an [HTTPException]: the one of the
    decoder, or [TypeError] at [product["price"]].  Nothing is written. *)
Theorem create_order_body_not_object f now order w r :
  catalog w (product_url (OrderCreate.product_id order)) = Some r ->
  status_code r = 200 ->
  json r = Raised JSONDecodeError
  \/ (exists product, json r = Returned product /\ forall d, product <> PyDict d) ->
  exists e,
    create_order f now order w = (Raised e, w)
    /\ (e = JSONDecodeError \/ e = TypeError)
    /\ response_status (fst (create_order f now order w)) = 500.
Proof.
  intros Hc Hs Hbody. rewrite (create_order_200 f now order w r Hc Hs).
  destruct Hbody as [->|(product & -> & Hn)].
  - exists JSONDecodeError. repeat split. now left.
  - exists TypeError.
    assert (E : checked_total f product (OrderCreate.quantity order) = Raised TypeError).
    { destruct product; try reflexivity. now destruct (Hn d). }
    rewrite E. repeat split. now right.
Qed.

Lemma create_order_body_not_object_witness :
  let w := World empty_store
             (catalog_with 42 (mkResponse 200 (Returned (PyList [PyInt 1])))) in
  exists e,
    create_order no_str_to_float 0 (sample_order 3) w = (Raised e, w)
    /\ (e = JSONDecodeError \/ e = TypeError)
    /\ response_status (fst (create_order no_str_to_float 0 (sample_order 3) w)) = 500.
Proof.
  intros w.
  apply (create_order_body_not_object no_str_to_float 0 (sample_order 3) w
           (mkResponse 200 (Returned (PyList [PyInt 1])))).
  - reflexivity.
  - reflexivity.
  - right. eexists. split; [reflexivity|]. intros d. discriminate.
Defined.

(** X10: a stock that is no number (null, a string, a list, an object)
    ends the request with [TypeError] at the comparison, after the total
    was computed: a 500, and nothing is written. *)
Theorem create_order_stock_not_number f now order w d price stock x y :
  catalog_answers w (OrderCreate.product_id order) (PyDict d) ->
  d !! "price" = Some price ->
  d !! "stock" = Some stock ->
  py_float f price = Returned x ->
  int_to_float (OrderCreate.quantity order) = Returned y ->
  stock = PyNone \/ (exists s, stock = PyStr s)
  \/ (exists l, stock = PyList l) \/ (exists d', stock = PyDict d') ->
  create_order f now order w = (Raised TypeError, w)
  /\ response_status (fst (create_order f now order w)) = 500.
Proof.
  intros Ha Hp Hs Hx Hy Hk.
  assert (E : create_order f now order w = (Raised TypeError, w)).
  { rewrite (create_order_answers f now order w _ Ha).
    unfold checked_total, py_getitem, py_mul. run_handler.
    rewrite Hp, Hx, Hy, Hs.
    destruct Hk as [->|[[s ->]|[[l ->]|[d' ->]]]]; reflexivity. }
  rewrite E. split; reflexivity.
Qed.

Lemma create_order_stock_not_number_witness :
  let w := World empty_store
             (catalog_with 42 (mkResponse 200
                (Returned (product_json (json_decimal 999 (-2)) (PyStr "10"))))) in
  create_order no_str_to_float 0 (sample_order 3) w = (Raised TypeError, w)
  /\ response_status (fst (create_order no_str_to_float 0 (sample_order 3) w)) = 500.
Proof.
  intros w.
  eapply (create_order_stock_not_number no_str_to_float 0 (sample_order 3) w
            _ (json_decimal 999 (-2)) (PyStr "10")).
  - eexists. repeat split; reflexivity.
  - reflexivity.
  - reflexivity.
  - reflexivity.
  - vm_compute. reflexivity.
  - right. left. eexists. reflexivity.
Defined.

(** X11: when the GET itself fails, the exception of the HTTP client ends
    the request: a 500, not the 400 of a product not found, and nothing
    is read from or written to the table. *)
Theorem create_order_catalog_unreachable f now order w :
  catalog w (product_url (OrderCreate.product_id order)) = None ->
  create_order f now order w = (Raised TransportError, w)
  /\ response_status (fst (create_order f now order w)) = 500
  /\ response_detail (fst (create_order f now order w)) = None.
Proof.
  intros H. rewrite (create_order_transport_error f now order w H). repeat split.
Qed.

Lemma create_order_catalog_unreachable_witness :
  let w := World empty_store (fun _ => None) in
  create_order no_str_to_float 0 (sample_order 3) w = (Raised TransportError, w)
  /\ response_status (fst (create_order no_str_to_float 0 (sample_order 3) w)) = 500
  /\ response_detail (fst (create_order no_str_to_float 0 (sample_order 3) w)) = None.
Proof.
  intros w.
  apply (create_order_catalog_unreachable no_str_to_float 0 (sample_order 3) w).
  reflexivity.
Defined.

(** ** Quantities beyond the floats *)

Lemma int_to_float_overflows z :
  2 ^ 1024 <= Z.abs z -> int_to_float z = Raised OverflowError.
Proof.
  intros Hz.
  assert (Hgen : forall s p, 2 ^ 1024 <= Zpos p ->
            exists s', binary_round prec emax s p 0 = S754_infinity s').
  { intros s p Hp. unfold binary_round.
    pose proof (Zdigits2_ge_pow2 (Zpos p) 1024 ltac:(lia) Hp) as Hd.
    pose proof (Zdigits2_spec (Zpos p) ltac:(lia)) as [Hlo _].
    clear Hp.
    change (Zpos (digits2_pos p)) with (Zdigits2 (Zpos p)).
    set (dp := Zdigits2 (Zpos p)) in *.
    assert (Hk : fexp prec emax (dp + 0) = dp - 53) by (rewrite fexp_eq; lia).
    rewrite Hk. unfold shl_align.
    destruct (dp - 53 - 0) as [|k|k] eqn:Ek; try lia.
    destruct (binary_round_aux_spec s (Zpos p) 0 loc_Exact (Zpos p) 1)
      as (m1 & Hm1 & _ & Hcase);
      [lia|lia|apply located_exact; lia|fold dp; rewrite fexp_eq; lia|].
    fold dp in Hm1, Hcase. rewrite Z.add_0_r in Hk. rewrite Z.add_0_r, Hk in Hm1, Hcase.
    rewrite Z.sub_0_r, Z.mul_1_l in Hm1.
    assert (Hq : 2 ^ 52 <= Zpos p / 2 ^ (dp - 53)).
    { apply Z.div_le_lower_bound; [apply Z.pow_pos_nonneg; lia|].
      rewrite <- Z.pow_add_r by lia.
      replace (dp - 53 + 52) with (dp - 1) by lia. exact Hlo. }
    set (qq := Zpos p / 2 ^ (dp - 53)) in *. clearbody qq.
    destruct (binary_round_aux prec emax s (Zpos p) 0 loc_Exact) as [s'|s'| |s' m e].
    - destruct Hcase as [_ Hc]. lia.
    - now exists s'.
    - contradiction.
    - destruct Hcase as (_ & He & _ & Hc). unfold emax, prec in He. lia. }
  unfold int_to_float, binary_normalize.
  destruct z as [|p|p].
  - exfalso. change (Z.abs 0) with 0 in Hz.
    pose proof (Z.pow_pos_nonneg 2 1024). lia.
  - now destruct (Hgen false p Hz) as [s' ->].
  - now destruct (Hgen true p Hz) as [s' ->].
Qed.

(** X12: a quantity of magnitude [2^1024] or more, with a price that
    converts, ends the request with [OverflowError] at the multiplication,
    whatever the stock: a 500, and nothing is written. *)
Theorem create_order_quantity_overflow f now order w d price x :
  catalog_answers w (OrderCreate.product_id order) (PyDict d) ->
  d !! "price" = Some price ->
  py_float f price = Returned x ->
  2 ^ 1024 <= Z.abs (OrderCreate.quantity order) ->
  create_order f now order w = (Raised OverflowError, w)
  /\ response_status (fst (create_order f now order w)) = 500.
Proof.
  intros Ha Hp Hx Hq.
  assert (E : create_order f now order w = (Raised OverflowError, w)).
  { rewrite (create_order_answers f now order w _ Ha).
    unfold checked_total, py_getitem, py_mul. run_handler.
    now rewrite Hp, Hx, (int_to_float_overflows _ Hq). }
  rewrite E. split; reflexivity.
Qed.

Lemma create_order_quantity_overflow_witness :
  create_order no_str_to_float 0 (sample_order (- 2 ^ 1030)) (sample_world 5)
  = (Raised OverflowError, sample_world 5)
  /\ response_status
       (fst (create_order no_str_to_float 0 (sample_order (- 2 ^ 1030)) (sample_world 5)))
     = 500.
Proof.
  apply (create_order_quantity_overflow no_str_to_float 0 (sample_order (- 2 ^ 1030))
           (sample_world 5)
           (<["price" := json_decimal 999 (-2)]> (<["stock" := PyInt 5]> ∅))
           (json_decimal 999 (-2)) (float_of_decimal 999 (-2))).
  - eexists. repeat split; reflexivity.
  - reflexivity.
  - reflexivity.
  - vm_compute. discriminate.
Defined.

(** ** The numeral sent to the server, for any price *)

(** A normal float [x] within half a unit in the last place of the real
    price [P], times a quantity below [2^53] in magnitude: the product is a
    normal float, and the numeral [repr] gives for it is within
    [4 * 2^-53], relatively, of [P * |q|]. *)
Lemma product_numeral_close sx mx ex q P :
  2 ^ 52 <= Zpos mx < 2 ^ 53 ->
  -1074 <= ex <= 100 ->
  (Rabs (IZR (Zpos mx) * powerRZ 2 ex - P) <= powerRZ 2 ex / 2)%R ->
  q <> 0 -> Z.abs q < 2 ^ 53 ->
  exists y m e a b,
    int_to_float q = Returned y
    /\ float_mul (S754_finite sx mx ex) y = S754_finite (xorb sx (q <? 0)) m e
    /\ float_repr (S754_finite (xorb sx (q <? 0)) m e)
       = Decimal (cond_Zopp (xorb sx (q <? 0)) a) b
    /\ 0 <= a
    /\ (Rabs (IZR a * powerRZ 10 b - P * IZR (Z.abs q))
        <= P * IZR (Z.abs q) * (4 / 9007199254740992))%R.
Proof.
  intros Hmx Hex Hvx Hq0 Hq.
  destruct (int_to_float_exact q Hq0 Hq) as (mq & eq & Hy & Hmq & Heq & Hvq).
  destruct (float_mul_normal sx mx ex (q <? 0) mq eq Hmx Hmq ltac:(lia))
    as (m & e & Hmul & Hm & Hv).
  destruct (float_repr_spec (xorb sx (q <? 0)) m e) as (a & b & Hrepr & Ha & Hread).
  exists (S754_finite (q <? 0) mq eq), m, e, a, b.
  split; [exact Hy|]. split; [exact Hmul|]. split; [exact Hrepr|]. split; [exact Ha|].
  set (n := IZR (Z.abs q)) in *.
  set (vx := (IZR (Zpos mx) * powerRZ 2 ex)%R) in *.
  set (v := (IZR (Zpos m) * powerRZ 2 e)%R) in *.
  set (D := (IZR a * powerRZ 10 b)%R).
  rewrite Hvq in Hv. fold n in Hv.
  pose proof (powerRZ_2_pos ex) as Hpx. pose proof (powerRZ_2_pos e) as Hpe.
  assert (Hmx' : (4503599627370496 <= IZR (Zpos mx))%R) by (apply IZR_le; lia).
  assert (Hm' : (4503599627370496 <= IZR (Zpos m))%R) by (apply IZR_le; lia).
  assert (Hux : (4503599627370496 * powerRZ 2 ex <= vx)%R) by (unfold vx; nra).
  assert (Hu : (4503599627370496 * powerRZ 2 e <= v)%R) by (unfold v; nra).
  assert (Hn1 : (1 <= n)%R) by (apply IZR_le; lia).
  assert (HD : (Rabs (v - D) <= powerRZ 2 e / 2)%R).
  { destruct Hread as [Hread|Hread].
    - destruct (Z.eq_dec a 0) as [->|Ha0].
      + rewrite float_of_decimal_zero in Hread. discriminate.
      + now apply float_of_decimal_value in Hread as [_ Hread]; [|lia].
    - unfold D. rewrite Hread. fold v.
      replace (v - v)%R with 0%R by ring. rewrite Rabs_R0. lra. }
  apply Rabs_le_inv in Hvx, Hv, HD.
  set (A := (vx * n)%R) in *. set (t := (P * n)%R).
  assert (HA : (- (A / 9007199254740992) <= A - t <= A / 9007199254740992)%R).
  { unfold A, t. split; nra. }
  apply Rabs_le. lra.
Qed.

(** ** Totals the column refuses *)

Lemma persist_refused now order total w :
  to_numeric_10_2 total = Raised DBAPIError ->
  persist now order total w = (Raised DBAPIError, w).
Proof.
  intros H. unfold persist, db_add_commit. run_handler.
  destruct (in_int4 (OrderCreate.user_id order) && in_int4 (OrderCreate.product_id order)
            && in_int4 (OrderCreate.quantity order)); cbn; [|reflexivity].
  now rewrite H.
Qed.

(** The hundredths the server computes for a two-decimal price times a
    quantity are their exact product up to [10^15], well beyond what the
    column holds. *)
Lemma hundredths_of_price x cents q :
  price_float cents x -> cents <> 0 -> q <> 0 ->
  Z.abs q < 2 ^ 53 -> Z.abs (cents * q) < 10 ^ 15 ->
  exists y s m e,
    int_to_float q = Returned y
    /\ float_mul x y = S754_finite s m e
    /\ round_half_away (float_repr (S754_finite s m e)) 2 = cents * q.
Proof.
  intros Hx Hc0 Hq0 Hq Hcq.
  destruct Hx as [[-> _]|(_ & mx & ex & -> & Hmx & Hex & Hvx)]; [lia|].
  destruct (product_numeral_close (cents <? 0) mx ex q (IZR (Z.abs cents) / 100)
              Hmx ltac:(lia) Hvx Hq0 Hq)
    as (y & m & e & a & b & Hy & Hmul & Hrepr & Ha & Hclose).
  exists y, (xorb (cents <? 0) (q <? 0)), m, e.
  split; [exact Hy|]. split; [exact Hmul|].
  rewrite Hrepr, round_half_away_opp.
  assert (Hh : round_half_away (Decimal a b) 2 = Z.abs cents * Z.abs q).
  { apply round_half_away_nearest; [exact Ha|].
    rewrite mult_IZR.
    set (c := IZR (Z.abs cents)) in *. set (n := IZR (Z.abs q)) in *.
    set (D := (IZR a * powerRZ 10 b)%R) in *.
    assert (Hc1 : (1 <= c)%R) by (apply IZR_le; lia).
    assert (Hn1 : (1 <= n)%R) by (apply IZR_le; lia).
    assert (Hcn : (c * n <= 999999999999999)%R).
    { unfold c, n. rewrite <- mult_IZR. apply IZR_le. rewrite <- Z.abs_mul. lia. }
    apply Rabs_le_inv in Hclose.
    assert (Hpos : (0 < c * n)%R) by nra.
    set (t := (c * n)%R) in *.
    replace (c / 100 * n)%R with (t / 100)%R in Hclose by (unfold t; field).
    apply Rabs_def1; lra. }
  rewrite Hh.
  destruct (Z.ltb_spec cents 0), (Z.ltb_spec q 0); cbn; nia.
Qed.

(** X13: a price of two decimals times a quantity whose exact product is
    [10^8] or more (and below [10^13]) passes the stock test and is then
    refused by the column: the request ends as a 500 and the table keeps
    its rows. *)
Theorem create_order_total_out_of_range f now order w d price cents stock :
  catalog_answers w (OrderCreate.product_id order) (PyDict d) ->
  d !! "price" = Some price ->
  json_price cents price ->
  d !! "stock" = Some (PyInt stock) ->
  OrderCreate.quantity order <= stock ->
  Z.abs cents < 10 ^ 10 ->
  Z.abs (OrderCreate.quantity order) < 2 ^ 53 ->
  10 ^ 10 <= Z.abs (cents * OrderCreate.quantity order) < 10 ^ 15 ->
  exists w',
    create_order f now order w = (Raised DBAPIError, w')
    /\ orders (db w') = orders (db w)
    /\ response_status (fst (create_order f now order w)) = 500.
Proof.
  intros Ha Hp Hprice Hs Hle Hc Hq [Hlo Hhi].
  assert (Hc0 : cents <> 0) by (intros ->; cbn in Hlo; lia).
  assert (Hq0 : OrderCreate.quantity order <> 0)
    by (intros E; rewrite E, Z.mul_0_r in Hlo; cbn in Hlo; lia).
  destruct (py_float_json_price f cents price Hprice Hc) as (x & Hx & Hpx).
  destruct (hundredths_of_price x cents _ Hpx Hc0 Hq0 Hq Hhi)
    as (y & s & m & e & Hy & Hmul & Hh).
  assert (Ht : to_numeric_10_2 (float_mul x y) = Raised DBAPIError).
  { rewrite Hmul. unfold to_numeric_10_2. rewrite Hh.
    destruct (Z.ltb_spec (Z.abs (cents * OrderCreate.quantity order)) (10 ^ 10));
      [lia|reflexivity]. }
  assert (E : create_order f now order w = (Raised DBAPIError, w)).
  { rewrite (create_order_answers f now order w _ Ha).
    unfold checked_total, py_getitem, py_mul, py_lt. run_handler.
    rewrite Hp, Hx, Hy, Hs.
    replace (stock <? OrderCreate.quantity order) with false
      by (symmetry; apply Z.ltb_ge; exact Hle).
    now apply persist_refused. }
  eexists. rewrite E. repeat split.
Qed.

Lemma create_order_total_out_of_range_witness :
  exists w',
    create_order no_str_to_float 0 (sample_order 100000000) (sample_world 100000000)
    = (Raised DBAPIError, w')
    /\ orders (db w') = orders (db (sample_world 100000000))
    /\ response_status
         (fst (create_order no_str_to_float 0 (sample_order 100000000)
                 (sample_world 100000000))) = 500.
Proof.
  apply (create_order_total_out_of_range no_str_to_float 0 (sample_order 100000000)
           (sample_world 100000000)
           (<["price" := json_decimal 999 (-2)]> (<["stock" := PyInt 100000000]> ∅))
           (json_decimal 999 (-2)) 999 100000000).
  - eexists. repeat split; reflexivity.
  - reflexivity.
  - left. reflexivity.
  - reflexivity.
  - vm_compute. discriminate.
  - reflexivity.
  - reflexivity.
  - split; [vm_compute; discriminate|reflexivity].
Defined.

(** ** The total of any decimal price, to the nearest hundredth *)

(** The server's rounding moves a numeral by half a hundredth at most. *)
Lemma round_half_away_close a b :
  0 <= a ->
  (Rabs (IZR (round_half_away (Decimal a b) 2) - 100 * (IZR a * powerRZ 10 b))
   <= 1 / 2)%R.
Proof.
  intros Ha. unfold round_half_away. cbn [dmant dexp].
  destruct (Z.leb_spec 0 (b + 2)) as [Hb|Hb].
  - rewrite mult_IZR, (IZR_pow 10) by lia. change (IZR 10) with 10%R.
    rewrite powerRZ_add, powerRZ_10_2 by lra.
    replace (_ - _)%R with 0%R by ring. rewrite Rabs_R0. lra.
  - set (k := - (b + 2)) in *. assert (Hk : 0 < k) by (unfold k; lia).
    set (p := 10 ^ k).
    assert (Hp : 0 < p) by (apply Z.pow_pos_nonneg; lia).
    assert (Hp2 : p = 2 * (p / 2)).
    { assert (Hmod : p mod 2 = 0).
      { unfold p. replace k with (Z.succ (k - 1)) by lia.
        rewrite Z.pow_succ_r by lia.
        replace (10 * 10 ^ (k - 1)) with (5 * 10 ^ (k - 1) * 2) by ring.
        apply Z.mod_mul. lia. }
      pose proof (Z.div_mod p 2 ltac:(lia)). lia. }
    set (hp := p / 2) in *.
    assert (E : (100 * (IZR a * powerRZ 10 b) * IZR p = IZR a)%R).
    { unfold p. rewrite (IZR_pow 10) by lia. change (IZR 10) with 10%R.
      assert (Hpp : (100 * powerRZ 10 b * powerRZ 10 k = 1)%R).
      { rewrite <- powerRZ_10_2. rewrite <- !powerRZ_add by lra.
        replace (2 + b + k) with 0 by (unfold k; lia). reflexivity. }
      transitivity (IZR a * (100 * powerRZ 10 b * powerRZ 10 k))%R;
        [ring|rewrite Hpp; ring]. }
    assert (HpR : (0 < IZR p)%R) by (apply IZR_lt; lia).
    destruct (Z.eq_dec a 0) as [->|Hne].
    + cbn [Z.sgn]. rewrite Z.mul_0_l, Rmult_0_l, Rmult_0_r.
      replace (0 - 0)%R with 0%R by ring. rewrite Rabs_R0. lra.
    + replace (Z.sgn a) with 1 by (symmetry; apply Z.sgn_pos; lia).
      rewrite Z.abs_eq by lia. rewrite Z.mul_1_l.
      set (h := (a + hp) / p).
      pose proof (Z.mul_div_le (a + hp) p Hp) as Hlo. fold h in Hlo.
      pose proof (Z.mul_succ_div_gt (a + hp) p Hp) as Hhi. fold h in Hhi.
      assert (H1 : (IZR p * IZR h - IZR hp <= IZR a)%R).
      { rewrite <- mult_IZR, <- minus_IZR. apply IZR_le. lia. }
      assert (H2 : (IZR a <= IZR p * IZR h + IZR hp)%R).
      { rewrite <- mult_IZR, <- plus_IZR. apply IZR_le. lia. }
      assert (H3 : (IZR p = 2 * IZR hp)%R).
      { rewrite Hp2 at 1. rewrite mult_IZR. reflexivity. }
      set (Dv := (100 * (IZR a * powerRZ 10 b))%R) in *.
      rewrite <- E in H1, H2.
      apply Rabs_le. split; nra.
Qed.

(** A positive decimal price below [10^8], written with a fraction, reads
    as a normal float within half a unit in its last place. *)
Lemma decimal_price_float m e :
  0 < m -> -300 <= e < 0 -> m <= 10 ^ 8 * 10 ^ (- e) ->
  exists mx ex,
    float_of_decimal m e = S754_finite false mx ex
    /\ 2 ^ 52 <= Zpos mx < 2 ^ 53
    /\ -1074 <= ex <= 100
    /\ (Rabs (IZR (Zpos mx) * powerRZ 2 ex - IZR m * powerRZ 10 e)
        <= powerRZ 2 ex / 2)%R.
Proof.
  intros Hm He Hle. unfold float_of_decimal, float_of_fraction.
  destruct (Z.leb_spec 0 e) as [?|_]; [lia|].
  destruct m as [|p|p]; try lia.
  set (D := 10 ^ (- e)) in *.
  assert (HD : 0 < D) by (apply Z.pow_pos_nonneg; lia).
  assert (HD2 : D < 2 ^ 1000).
  { apply Z.le_lt_trans with (10 ^ 300); [|reflexivity].
    apply Z.pow_le_mono_r; lia. }
  assert (Hpos : Zpos (Z.to_pos D) = D) by (apply Z2Pos.id; exact HD).
  pose proof (Zdigits2_spec D HD) as [_ HdD].
  pose proof (Zdigits2_pos D HD) as Hd2.
  pose proof (Zdigits2_lt_pow2 D 1000 ltac:(lia) ltac:(lia) HD2) as Hd2'.
  pose proof (Zdigits2_pos (Zpos p) ltac:(lia)) as Hd1.
  assert (Hd1' : Zdigits2 (Zpos p) <= 27 + Zdigits2 D).
  { apply Zdigits2_lt_pow2; [lia|lia|].
    rewrite Z.pow_add_r by lia.
    apply Z.le_lt_trans with (10 ^ 8 * D); [exact Hle|].
    apply Z.lt_le_trans with (2 ^ 27 * D).
    - apply Z.mul_lt_mono_pos_r; [exact HD|reflexivity].
    - apply Z.mul_le_mono_nonneg_l; [apply Z.pow_nonneg|]; lia. }
  destruct (SFdiv_integers_normal false p (Z.to_pos D))
    as (mx & ex & Hres & Hmx & Hex & Hb).
  { rewrite Hpos. lia. }
  rewrite Hpos in Hex.
  exists mx, ex. split; [exact Hres|]. split; [exact Hmx|]. split; [lia|].
  replace (IZR (Zpos p) * powerRZ 10 e)%R
    with (IZR (Zpos p) / IZR (Zpos (Z.to_pos D)))%R; [exact Hb|].
  rewrite Hpos. unfold D. rewrite (IZR_pow 10) by lia. change (IZR 10) with 10%R.
  replace e with (- - e) at 2 by lia. rewrite (powerRZ_neg' 10 (- e)). reflexivity.
Qed.

(** X14: for any positive decimal price below [10^8] written with a
    fraction, a positive quantity within the stock, a user, a product and
    a quantity that fit their [Integer] columns, an exact total below
    [10^8] and a free key from the sequence, [create_order] returns an
    order whose total, in hundredths, is within half a hundredth (and a
    hundred-thousandth of one more) of price times quantity.  The half is
    the rounding of the column; the float arithmetic costs at most the
    hundred-thousandth, which is enough to miss the nearest hundredth of
    the exact product when that product is next to a tie. *)
Theorem create_order_total_error_bound f now order w d m e stock :
  catalog_answers w (OrderCreate.product_id order) (PyDict d) ->
  d !! "price" = Some (json_decimal m e) ->
  d !! "stock" = Some (PyInt stock) ->
  0 < m -> -300 <= e < 0 ->
  0 < OrderCreate.quantity order <= stock ->
  fits_columns order = true ->
  100 * m * OrderCreate.quantity order <= (10 ^ 10 - 1) * 10 ^ (- e) ->
  in_int4 (orders_id_seq (db w)) = true ->
  orders (db w) !! orders_id_seq (db w) = None ->
  exists o w' h,
    create_order f now order w = (Returned o, w')
    /\ Order.total o = Num h
    /\ (Rabs (IZR h - 100 * (decimal_value (Decimal m e)
                             * IZR (OrderCreate.quantity order)))
        <= 1 / 2 + 1 / 100000)%R.
Proof.
  intros Ha Hp Hs Hm He [Hq0 Hle] Hcol Hfit Hk Hf.
  assert (Hq : OrderCreate.quantity order < 2 ^ 53).
  { pose proof Hcol as Hcol'.
    apply fits_columns_spec in Hcol' as (_ & _ & Hq).
    apply in_int4_spec in Hq. lia. }
  set (q := OrderCreate.quantity order) in *.
  set (D := 10 ^ (- e)) in *.
  assert (HD : 0 < D) by (apply Z.pow_pos_nonneg; lia).
  assert (Hmle : m <= 10 ^ 8 * D) by nia.
  destruct (decimal_price_float m e Hm He Hmle) as (mx & ex & Hx & Hmx & Hex & Hvx).
  destruct (product_numeral_close false mx ex q (IZR m * powerRZ 10 e)
              Hmx Hex Hvx ltac:(lia) ltac:(lia))
    as (y & mm & ee & a & b & Hy & Hmul & Hrepr & Ha0 & Hclose).
  replace (xorb false (q <? 0)) with false in *
    by (destruct (Z.ltb_spec q 0); [lia|reflexivity]).
  cbn [cond_Zopp] in Hrepr.
  set (h := round_half_away (Decimal a b) 2).
  pose proof (round_half_away_close a b Ha0) as Hround. fold h in Hround.
  (* the exact total, in hundredths, is at most [10^10 - 1] *)
  set (P := (IZR m * powerRZ 10 e)%R) in *.
  rewrite Z.abs_eq in Hclose by lia.
  assert (HPD : (P * IZR D = IZR m)%R).
  { unfold P, D. rewrite (IZR_pow 10) by lia. change (IZR 10) with 10%R.
    rewrite Rmult_assoc, <- powerRZ_add by lra.
    replace (e + - e) with 0 by lia. cbn. ring. }
  assert (HDR : (0 < IZR D)%R) by (apply IZR_lt; lia).
  assert (HqR : (1 <= IZR q)%R) by (apply IZR_le; lia).
  assert (HP0 : (0 < P)%R).
  { assert (0 < IZR m)%R by (apply IZR_lt; lia). nra. }
  assert (Hfit' : (100 * (P * IZR q) <= 9999999999)%R).
  { assert (Hz : (100 * IZR m * IZR q <= 9999999999 * IZR D)%R).
    { change 100%R with (IZR 100). change 9999999999%R with (IZR (10 ^ 10 - 1)).
      rewrite <- !mult_IZR. apply IZR_le. exact Hfit. }
    rewrite <- HPD in Hz. nra. }
  apply Rabs_le_inv in Hclose, Hround.
  set (t := (P * IZR q)%R) in *. set (Dv := (IZR a * powerRZ 10 b)%R) in *.
  assert (Ht0 : (0 < t)%R) by (unfold t; nra).
  assert (Hacc : (- (1 / 2 + 1 / 100000) <= IZR h - 100 * t <= 1 / 2 + 1 / 100000)%R)
    by lra.
  assert (Hh0 : 0 <= h) by (apply round_half_away_sign; cbn; exact Ha0).
  assert (Hh1 : h < 10 ^ 10).
  { apply lt_IZR. change (IZR (10 ^ 10)) with 10000000000%R. lra. }
  assert (Ht : to_numeric_10_2 (float_mul (S754_finite false mx ex) y) = Returned (Num h)).
  { rewrite Hmul. unfold to_numeric_10_2. rewrite Hrepr. fold h.
    destruct (Z.ltb_spec (Z.abs h) (10 ^ 10)); [reflexivity|lia]. }
  assert (Hlt : py_lt (PyInt stock) q = Returned false).
  { cbn. f_equal. apply Z.ltb_ge. exact Hle. }
  eexists _, _, h. split.
  - apply (create_order_persisted f now order w d (json_decimal m e) (PyInt stock)
             (S754_finite false mx ex) y (Num h)); try assumption.
    cbn. now rewrite Hx.
  - split; [reflexivity|]. unfold decimal_value. cbn [dmant dexp]. fold P t.
    apply Rabs_le. exact Hacc.
Qed.

Lemma create_order_total_error_bound_witness :
  let w := World empty_store
             (catalog_with 42 (mkResponse 200
                (Returned (product_json (json_decimal 1 (-3)) (PyInt 10))))) in
  exists o w' h,
    create_order no_str_to_float 0 (sample_order 9) w = (Returned o, w')
    /\ Order.total o = Num h
    /\ (Rabs (IZR h - 100 * (decimal_value (Decimal 1 (-3)) * IZR 9))
        <= 1 / 2 + 1 / 100000)%R.
Proof.
  intros w.
  apply (create_order_total_error_bound no_str_to_float 0 (sample_order 9) w
           (<["price" := json_decimal 1 (-3)]> (<["stock" := PyInt 10]> ∅))
           1 (-3) 10).
  - eexists. repeat split; reflexivity.
  - reflexivity.
  - reflexivity.
  - reflexivity.
  - split; [vm_compute; discriminate|reflexivity].
  - split; [reflexivity|vm_compute; discriminate].
  - reflexivity.
  - vm_compute. discriminate.
  - reflexivity.
  - reflexivity.
Defined.

(** The hundred-thousandth is not idle: the price 1.0050000000000000001
    reads as the float below 1.005, three of them are
    3.0149999999999997, stored as 3.01, where the exact product
    3.0150000000000000003 is nearest to 3.02. *)
Example create_order_total_misses_nearest :
  let w := World empty_store
             (catalog_with 42 (mkResponse 200
                (Returned (product_json (json_decimal 10050000000000000001 (-19))
                             (PyInt 10))))) in
  fst (create_order no_str_to_float 0 (sample_order 3) w)
  = Returned (Order.mk 1 1 42 3 (Num 301) "PENDING" 0)
  /\ round_half_away (Decimal (10050000000000000001 * 3) (-19)) 2 = 302.
Proof. intros w. split; vm_compute; reflexivity. Qed.

(** ** A stock given as a float, and a quantity of zero *)

(** The comparison of a float with an int is exact: the int is not
    rounded to a float first. *)
Lemma float_lt_int_value s m e q :
  float_lt_int (S754_finite s m e) q = true
  <-> (float_value (S754_finite s m e) < IZR q)%R.
Proof.
  unfold float_lt_int, float_value. set (v := cond_Zopp s (Zpos m)).
  pose proof (powerRZ_2_pos e) as Hp.
  destruct (Z.leb_spec 0 e) as [He|He].
  - rewrite Z.ltb_lt. rewrite <- (IZR_pow 2) by lia. rewrite <- mult_IZR.
    split; [apply IZR_lt|apply lt_IZR].
  - rewrite Z.ltb_lt.
    assert (E : (powerRZ 2 e * powerRZ 2 (- e) = 1)%R).
    { rewrite <- powerRZ_2_add. replace (e + - e) with 0 by lia. reflexivity. }
    pose proof (powerRZ_2_pos (- e)) as Hn.
    assert (Hq : IZR (q * 2 ^ (- e)) = (IZR q * powerRZ 2 (- e))%R).
    { rewrite mult_IZR, (IZR_pow 2) by lia. reflexivity. }
    split.
    + intros H. apply IZR_lt in H. rewrite Hq in H.
      apply Rmult_lt_reg_r with (powerRZ 2 (- e)); [exact Hn|].
      rewrite Rmult_assoc, E. lra.
    + intros H. apply lt_IZR. rewrite Hq.
      apply Rmult_lt_compat_r with (r := powerRZ 2 (- e)) in H; [|exact Hn].
      rewrite Rmult_assoc, E in H. lra.
Qed.

(** X15: a stock that is a finite float is compared with the quantity
    exactly, as real numbers: with a price and a quantity that convert,
    [create_order] answers "insufficient stock" exactly when the value of
    the float is below the quantity. *)
Theorem create_order_float_stock_iff f now order w d price s m e x y :
  catalog_answers w (OrderCreate.product_id order) (PyDict d) ->
  d !! "price" = Some price ->
  d !! "stock" = Some (PyFloat (S754_finite s m e)) ->
  py_float f price = Returned x ->
  int_to_float (OrderCreate.quantity order) = Returned y ->
  create_order f now order w = (Raised (HTTPException 400 "insufficient stock"), w)
  <-> (float_value (S754_finite s m e) < IZR (OrderCreate.quantity order))%R.
Proof.
  intros Ha Hp Hs Hx Hy.
  rewrite <- float_lt_int_value.
  rewrite (create_order_answers f now order w _ Ha).
  unfold checked_total, py_getitem, py_mul, py_lt. run_handler.
  rewrite Hp, Hx, Hy, Hs.
  destruct (float_lt_int (S754_finite s m e) (OrderCreate.quantity order)).
  - split; reflexivity.
  - split; [|discriminate]. intros H. exfalso.
    destruct (persist now order (float_mul x y) w) as [[o|e0] w'] eqn:Hp';
      [discriminate|].
    apply persist_raised in Hp' as (_ & _ & He). injection H as -> _. discriminate.
Qed.

(** The witness: a stock of 2.5 and a quantity of 3. *)
Lemma create_order_float_stock_iff_witness :
  let stock := S754_finite false 5629499534213120 (-51) in
  let w := World empty_store
             (catalog_with 42 (mkResponse 200
                (Returned (product_json (json_decimal 999 (-2)) (PyFloat stock))))) in
  (create_order no_str_to_float 0 (sample_order 3) w
   = (Raised (HTTPException 400 "insufficient stock"), w)
   <-> (float_value stock < IZR 3)%R)
  /\ create_order no_str_to_float 0 (sample_order 3) w
     = (Raised (HTTPException 400 "insufficient stock"), w).
Proof.
  intros stock w. split.
  - apply (create_order_float_stock_iff no_str_to_float 0 (sample_order 3) w
             (<["price" := json_decimal 999 (-2)]> (<["stock" := PyFloat stock]> ∅))
             (json_decimal 999 (-2)) false 5629499534213120 (-51)
             (float_of_decimal 999 (-2)) (S754_finite false 6755399441055744 (-51))).
    + eexists. repeat split; reflexivity.
    + reflexivity.
    + reflexivity.
    + reflexivity.
    + vm_compute. reflexivity.
  - vm_compute. reflexivity.
Defined.

(** X16: a quantity of zero is accepted whenever the stock test passes,
    and costs nothing: with any finite price, positive or negative, a user
    and a product that fit their [Integer] columns and a free key from the
    sequence, the order is written with total 0.00. *)
Theorem create_order_zero_quantity f now order w d price stock x :
  catalog_answers w (OrderCreate.product_id order) (PyDict d) ->
  d !! "price" = Some price ->
  d !! "stock" = Some stock ->
  OrderCreate.quantity order = 0 ->
  py_float f price = Returned x ->
  (exists s, x = S754_zero s) \/ (exists s m e, x = S754_finite s m e) ->
  py_lt stock 0 = Returned false ->
  in_int4 (OrderCreate.user_id order) = true ->
  in_int4 (OrderCreate.product_id order) = true ->
  in_int4 (orders_id_seq (db w)) = true ->
  orders (db w) !! orders_id_seq (db w) = None ->
  exists o w',
    create_order f now order w = (Returned o, w')
    /\ Order.quantity o = 0
    /\ Order.total o = Num 0
    /\ orders (db w') !! Order.id o = Some o.
Proof.
  intros Ha Hp Hs Hq Hx Hfin Hlt Hu Hpi Hk Hf.
  assert (Ht : to_numeric_10_2 (float_mul x (S754_zero false)) = Returned (Num 0)).
  { destruct Hfin as [[s ->]|(s & m & e & ->)]; reflexivity. }
  assert (Hc : fits_columns order = true).
  { apply fits_columns_spec. rewrite Hq. now repeat split. }
  assert (Hy : int_to_float (OrderCreate.quantity order) = Returned (S754_zero false))
    by now rewrite Hq.
  assert (Hlt' : py_lt stock (OrderCreate.quantity order) = Returned false)
    by now rewrite Hq.
  eexists _, _. split.
  - apply (create_order_persisted f now order w d price stock x (S754_zero false) (Num 0));
      assumption.
  - cbn. rewrite lookup_insert_eq. rewrite Hq. repeat split.
Qed.

(** The witness: nothing in stock and nothing ordered. *)
Lemma create_order_zero_quantity_witness :
  exists o w',
    create_order no_str_to_float 0 (sample_order 0) (sample_world 0) = (Returned o, w')
    /\ Order.quantity o = 0
    /\ Order.total o = Num 0
    /\ orders (db w') !! Order.id o = Some o.
Proof.
  apply (create_order_zero_quantity no_str_to_float 0 (sample_order 0) (sample_world 0)
           (<["price" := json_decimal 999 (-2)]> (<["stock" := PyInt 0]> ∅))
           (json_decimal 999 (-2)) (PyInt 0) (float_of_decimal 999 (-2))).
  - eexists. repeat split; reflexivity.
  - reflexivity.
  - reflexivity.
  - reflexivity.
  - reflexivity.
  - right. vm_compute. eexists _, _, _. reflexivity.
  - reflexivity.
  - reflexivity.
  - reflexivity.
  - reflexivity.
  - reflexivity.
Defined.

(** ** The [Integer] columns and the encoder *)

Lemma int_to_float_int4 z :
  in_int4 z = true -> exists y, int_to_float z = Returned y.
Proof.
  intros H. apply in_int4_spec in H.
  destruct (Z.eq_dec z 0) as [->|Hz].
  - eexists. reflexivity.
  - destruct (int_to_float_exact z Hz ltac:(lia)) as (m & e & Hy & _).
    eexists. exact Hy.
Qed.

(** X17: a user, a product or a quantity outside the range of its
    [Integer] column is not refused by the handler: with a price that
    converts and a stock test that passes, the request reaches the INSERT,
    which the server refuses.  The request ends as a 500, and the table
    and its sequence are as they were. *)
Theorem create_order_integer_out_of_range f now order w d price stock x y :
  catalog_answers w (OrderCreate.product_id order) (PyDict d) ->
  d !! "price" = Some price ->
  d !! "stock" = Some stock ->
  py_float f price = Returned x ->
  int_to_float (OrderCreate.quantity order) = Returned y ->
  py_lt stock (OrderCreate.quantity order) = Returned false ->
  fits_columns order = false ->
  create_order f now order w = (Raised DBAPIError, w)
  /\ response_status (fst (create_order f now order w)) = 500.
Proof.
  intros Ha Hp Hs Hx Hy Hlt Hc.
  assert (E : create_order f now order w = (Raised DBAPIError, w)).
  { rewrite (create_order_answers f now order w _ Ha).
    unfold checked_total, py_getitem, py_mul. run_handler.
    rewrite Hp, Hx, Hy, Hs, Hlt.
    unfold persist, db_add_commit. run_handler.
    unfold fits_columns in Hc. now rewrite Hc. }
  rewrite E. split; reflexivity.
Qed.

(** The witness: price 0.01, stock 3000000000, quantity [2^31]. *)
Lemma create_order_integer_out_of_range_witness :
  let w := World empty_store
             (catalog_with 42 (mkResponse 200
                (Returned (product_json (json_decimal 1 (-2)) (PyInt 3000000000))))) in
  let order := sample_order (2 ^ 31) in
  create_order no_str_to_float 0 order w = (Raised DBAPIError, w)
  /\ response_status (fst (create_order no_str_to_float 0 order w)) = 500.
Proof.
  intros w order.
  eapply (create_order_integer_out_of_range no_str_to_float 0 order w
            (<["price" := json_decimal 1 (-2)]> (<["stock" := PyInt 3000000000]> ∅))
            (json_decimal 1 (-2)) (PyInt 3000000000)).
  - eexists. repeat split; reflexivity.
  - reflexivity.
  - reflexivity.
  - reflexivity.
  - vm_compute. reflexivity.
  - reflexivity.
  - reflexivity.
Defined.

(** X18: a price that converts to the float that is not a number is not
    refused either.  The total is not a number, the column stores it, and
    the handler returns the row; the encoder of the answer then fails.
    The request ends as a 500 with the order written. *)
Theorem create_order_nan_total f now order w d price stock :
  catalog_answers w (OrderCreate.product_id order) (PyDict d) ->
  d !! "price" = Some price ->
  d !! "stock" = Some stock ->
  py_float f price = Returned S754_nan ->
  py_lt stock (OrderCreate.quantity order) = Returned false ->
  fits_columns order = true ->
  in_int4 (orders_id_seq (db w)) = true ->
  orders (db w) !! orders_id_seq (db w) = None ->
  exists o w',
    create_order f now order w = (Returned o, w')
    /\ Order.total o = NumNaN
    /\ orders (db w') !! Order.id o = Some o
    /\ get_order (Order.id o) w' = (Returned o, w')
    /\ response_status (fst (create_order f now order w)) = 500.
Proof.
  intros Ha Hp Hs Hx Hlt Hc Hk Hf.
  pose proof Hc as Hc'. apply fits_columns_spec in Hc' as (_ & _ & Hq).
  destruct (int_to_float_int4 _ Hq) as [y Hy].
  assert (Ht : to_numeric_10_2 (float_mul S754_nan y) = Returned NumNaN)
    by (destruct y; reflexivity).
  pose proof (create_order_persisted f now order w d price stock S754_nan y NumNaN
                Ha Hp Hs Hx Hy Hlt Hc Ht Hk Hf) as E.
  cbv zeta in E. eexists _, _. split; [exact E|].
  rewrite E, get_order_eq. cbn. rewrite lookup_insert_eq. repeat split.
Qed.

(** The witness: a body with the literal [NaN], which [r.json()] reads. *)
Lemma create_order_nan_total_witness :
  let w := World empty_store
             (catalog_with 42 (mkResponse 200
                (Returned (product_json (PyFloat S754_nan) (PyInt 10))))) in
  exists o w',
    create_order no_str_to_float 0 (sample_order 3) w = (Returned o, w')
    /\ Order.total o = NumNaN
    /\ orders (db w') !! Order.id o = Some o
    /\ get_order (Order.id o) w' = (Returned o, w')
    /\ response_status (fst (create_order no_str_to_float 0 (sample_order 3) w)) = 500.
Proof.
  intros w.
  apply (create_order_nan_total no_str_to_float 0 (sample_order 3) w
           (<["price" := PyFloat S754_nan]> (<["stock" := PyInt 10]> ∅))
           (PyFloat S754_nan) (PyInt 10)).
  - eexists. repeat split; reflexivity.
  - reflexivity.
  - reflexivity.
  - reflexivity.
  - reflexivity.
  - reflexivity.
  - reflexivity.
  - reflexivity.
Defined.
